(** * The chat session engine of the procurement assistant (pages/Chat.jsx)

    A shallow embedding of the streaming/session logic of the [Chat]
    component: the event-stream reader [processStreamingResponse], the three
    remote operations [startNewWorkflow], [continueWorkflow] and
    [replayWorkflow], the submit handler [handleSendMessage] and the history
    loader [loadSessionHistory].

    Conventions of the embedding.
    - A JavaScript string is the list of its UTF-16 code units, each a [Z].
    - A byte chunk (a [Uint8Array]) is a list of bytes, each a [Z].
    - A React state variable read inside a handler is read from the render
      the handler was created in (its closure); a [setX] call writes the
      store.  Handlers therefore take two states: [render], the snapshot the
      closure captured, and the store they transform.
    - What the network delivers to a handler is an argument of the
      handler.  [handleSendMessage] and the operations run a call from its
      first line to its last, the pending [setTimeout] callbacks firing
      only afterwards ([fireAll]); their [...Timed] versions let pending
      callbacks fire at each [await] of the call, as the schedule [Waits]
      says, and coincide with them when no callback fires meanwhile.
    - Host functions the component calls but does not define
      ([JSON.parse], [String.prototype.toLowerCase], [Date.now],
      [Math.random]) are the fields of a [Host] record; theorems hold for
      every host, examples run on [refHost]. *)

From Stdlib Require Import String Ascii ZArith Lia Bool List.
Import ListNotations.
Local Open Scope Z_scope.

(* ================================================================== *)
(** ** JavaScript strings *)

Definition JSString := list Z.

(** A literal: the code units of an ASCII/Latin-1 source literal. *)
Definition js (s : string) : JSString :=
  map (fun a => Z.of_N (N_of_ascii a)) (list_ascii_of_string s).

(** A literal in which every apostrophe stands for a double quote (U+0022);
    used to write JSON text readably. *)
Definition jsq (s : string) : JSString :=
  map (fun c => if c =? 39 then 34 else c) (js s).

Definition JSString_eqb (a b : JSString) : bool :=
  if list_eq_dec Z.eq_dec a b then true else false.

(** [String.prototype.startsWith(searchString)]. *)
Fixpoint startsWith (s searchString : JSString) : bool :=
  match searchString, s with
  | [], _ => true
  | _ :: _, [] => false
  | p :: searchString', c :: s' => (c =? p) && startsWith s' searchString'
  end.

(** [String.prototype.slice(start)] for a non-negative [start]. *)
Definition slice (start : nat) (s : JSString) : JSString := skipn start s.

(** [String.prototype.includes(searchString)]. *)
Fixpoint includes (s searchString : JSString) : bool :=
  startsWith s searchString ||
  match s with
  | [] => false
  | _ :: s' => includes s' searchString
  end.

(** ECMAScript WhiteSpace and LineTerminator code points, the ones
    [String.prototype.trim] strips. *)
Definition isWhiteSpace (c : Z) : bool :=
  (c =? 9) || (c =? 10) || (c =? 11) || (c =? 12) || (c =? 13) || (c =? 32)
  || (c =? 160) || (c =? 5760) || ((8192 <=? c) && (c <=? 8202))
  || (c =? 8232) || (c =? 8233) || (c =? 8239) || (c =? 8287)
  || (c =? 12288) || (c =? 65279).

Fixpoint trimStart (s : JSString) : JSString :=
  match s with
  | [] => []
  | c :: s' => if isWhiteSpace c then trimStart s' else s
  end.

Definition trimEnd (s : JSString) : JSString := rev (trimStart (rev s)).

(** [String.prototype.trim]. *)
Definition trim (s : JSString) : JSString := trimEnd (trimStart s).

Definition LF : Z := 10.

(** [String.prototype.split(separator)] for a one-unit separator: always at
    least one piece; a trailing separator gives a trailing empty piece. *)
Fixpoint split (separator : Z) (s : JSString) : list JSString :=
  match s with
  | [] => [[]]
  | c :: s' =>
      if c =? separator then [] :: split separator s'
      else match split separator s' with
           | piece :: pieces => (c :: piece) :: pieces
           | [] => [[c]]
           end
  end.


(** Decimal digits of a non-negative integer ([Number.prototype.toString]
    on an integer such as an HTTP status). *)
Fixpoint digits (fuel : nat) (n : Z) (acc : JSString) : JSString :=
  match fuel with
  | O => acc
  | S fuel' =>
      let acc' := (48 + n mod 10) :: acc in
      if n / 10 =? 0 then acc' else digits fuel' (n / 10) acc'
  end.

Definition toString (n : Z) : JSString :=
  if n <? 0 then 45 :: digits (Z.to_nat (- n) + 1) (- n) []
  else digits (Z.to_nat n + 1) n [].

(* ================================================================== *)
(** ** TextDecoder: the streaming UTF-8 decoder (WHATWG Encoding) *)

Module TextDecoder.

Record t := mk {
  codePoint : Z;
  bytesSeen : Z;
  bytesNeeded : Z;
  lowerBoundary : Z;
  upperBoundary : Z;
  BOMseen : bool
}.

(** [new TextDecoder()]. *)
Definition new : t := mk 0 0 0 128 191 false.

Definition reset (d : t) : t := mk 0 0 0 128 191 (BOMseen d).

(** A byte met when no sequence is pending. *)
Definition lead (d : t) (byte : Z) : t * list Z :=
  if (0 <=? byte) && (byte <=? 127) then (reset d, [byte])
  else if (194 <=? byte) && (byte <=? 223) then
    (mk (Z.land byte 31) 0 1 128 191 (BOMseen d), [])
  else if (224 <=? byte) && (byte <=? 239) then
    (mk (Z.land byte 15) 0 2
        (if byte =? 224 then 160 else 128)
        (if byte =? 237 then 159 else 191) (BOMseen d), [])
  else if (240 <=? byte) && (byte <=? 244) then
    (mk (Z.land byte 7) 0 3
        (if byte =? 240 then 144 else 128)
        (if byte =? 244 then 143 else 191) (BOMseen d), [])
  else (reset d, [65533]).

(** The UTF-8 decoder's handler on one byte: the new state and the code
    points emitted (U+FFFD for an error; a byte that breaks a pending
    sequence is processed again as a lead byte). *)
Definition handler (d : t) (byte : Z) : t * list Z :=
  if bytesNeeded d =? 0 then lead d byte
  else if (byte <? lowerBoundary d) || (upperBoundary d <? byte) then
    let (d', out) := lead (reset d) byte in (d', 65533 :: out)
  else
    let cp := Z.lor (Z.shiftl (codePoint d) 6) (Z.land byte 63) in
    if bytesSeen d + 1 =? bytesNeeded d then (reset d, [cp])
    else (mk cp (bytesSeen d + 1) (bytesNeeded d) 128 191 (BOMseen d), []).

(** Code point to UTF-16 code units. *)
Definition codeUnits (cp : Z) : JSString :=
  if cp <? 65536 then [cp]
  else [55296 + Z.shiftr (cp - 65536) 10; 56320 + Z.land (cp - 65536) 1023].

(** Serialising the emitted code points: the first code point of the stream
    is dropped when it is the byte order mark. *)
Fixpoint serialize (seen : bool) (cps : list Z) : bool * JSString :=
  match cps with
  | [] => (seen, [])
  | cp :: cps' =>
      let (seen', out) := serialize true cps' in
      (seen', if negb seen && (cp =? 65279) then out else codeUnits cp ++ out)
  end.

Definition setBOMseen (b : bool) (d : t) : t :=
  mk (codePoint d) (bytesSeen d) (bytesNeeded d)
     (lowerBoundary d) (upperBoundary d) b.

Definition step (d : t) (byte : Z) : t * JSString :=
  let (d1, cps) := handler d byte in
  let (seen, out) := serialize (BOMseen d1) cps in
  (setBOMseen seen d1, out).

(** [decoder.decode(value, { stream: true })]: the pending bytes of an
    incomplete sequence stay in the decoder for the next call. *)
Fixpoint decode (d : t) (value : list Z) : t * JSString :=
  match value with
  | [] => (d, [])
  | byte :: value' =>
      let (d1, out1) := step d byte in
      let (d2, out2) := decode d1 value' in
      (d2, out1 ++ out2)
  end.

(** In every state the decoder reaches, a pending sequence only accepts
    bytes above the ASCII range. *)
Definition wf (d : t) : Prop := 128 <= lowerBoundary d.

End TextDecoder.

(* ================================================================== *)
(** ** JSON values and the JavaScript operations applied to them *)

(** What [JSON.parse] returns.  A number is kept as the exact decimal
    [mantissa * 10 ^ exponent] of its literal. *)
#[warnings="-register-all"]
Inductive JSON : Type :=
| JNull
| JBool (b : bool)
| JNumber (mantissa exponent : Z)
| JString (s : JSString)
| JArray (items : list JSON)
| JObject (members : list (JSString * JSON)).

(** A JavaScript value reachable here: [undefined] or a JSON value. *)
Definition JSValue := option JSON.
Definition undefined : JSValue := None.
Definition str (s : JSString) : JSValue := Some (JString s).

(** The decimal rounds to the double 0 (it is 0, or at most 2^-1075 in
    magnitude). *)
Definition isZeroNumber (mantissa exponent : Z) : bool :=
  (mantissa =? 0) ||
  ((exponent <? 0) && (Z.abs mantissa * 2 ^ 1075 <=? 10 ^ (- exponent))).

(** ToBoolean: what [if (v)] and [v && ...] test. *)
Definition truthy (v : JSValue) : bool :=
  match v with
  | None => false
  | Some JNull => false
  | Some (JBool b) => b
  | Some (JNumber m e) => negb (isZeroNumber m e)
  | Some (JString s) => match s with [] => false | _ => true end
  | Some (JArray _) => true
  | Some (JObject _) => true
  end.

Fixpoint lookup (key : JSString) (members : list (JSString * JSON)) : JSValue :=
  match members with
  | [] => undefined
  | (k, v) :: members' =>
      if JSString_eqb k key then Some v else lookup key members'
  end.

(** [data.key] for a key that no prototype defines: [None] is the TypeError
    of reading a property of [null]. *)
Definition getProp (data : JSON) (key : JSString) : option JSValue :=
  match data with
  | JNull => None
  | JObject members => Some (lookup key members)
  | _ => Some undefined
  end.

(** [a === b] against a string literal. *)
Definition strictEqualsString (v : JSValue) (literal : JSString) : bool :=
  match v with
  | Some (JString s) => JSString_eqb s literal
  | _ => false
  end.

(* ================================================================== *)
(** ** The host *)

Record Host := {
  (** [JSON.parse(text)]; [None] is a thrown SyntaxError. *)
  JSON_parse : JSString -> option JSON;
  (** [String.prototype.toLowerCase]. *)
  toLowerCase : JSString -> JSString;
  (** [Date.now()]: the k-th reading of the clock, in milliseconds. *)
  Date_now : nat -> Z;
  (** [Math.random()]: the k-th draw, as an opaque token. *)
  Math_random : nat -> Z
}.

(** *** A reference host: an ECMA-404 parser and a Latin-1 lower-casing *)

Module Ref.

Fixpoint skipWs (s : JSString) : JSString :=
  match s with
  | [] => []
  | c :: s' =>
      if (c =? 32) || (c =? 9) || (c =? 10) || (c =? 13) then skipWs s' else s
  end.

Definition hexValue (c : Z) : option Z :=
  if (48 <=? c) && (c <=? 57) then Some (c - 48)
  else if (65 <=? c) && (c <=? 70) then Some (c - 55)
  else if (97 <=? c) && (c <=? 102) then Some (c - 87)
  else None.

Definition hex4 (a b c d : Z) : option Z :=
  match hexValue a, hexValue b, hexValue c, hexValue d with
  | Some a, Some b, Some c, Some d => Some (((a * 16 + b) * 16 + c) * 16 + d)
  | _, _, _, _ => None
  end.

Definition escape (e : Z) : option Z :=
  if (e =? 34) || (e =? 92) || (e =? 47) then Some e
  else if e =? 98 then Some 8
  else if e =? 102 then Some 12
  else if e =? 110 then Some 10
  else if e =? 114 then Some 13
  else if e =? 116 then Some 9
  else None.

(** The characters of a string literal after its opening quote. *)
Fixpoint parseChars (s acc : JSString) : option (JSString * JSString) :=
  match s with
  | [] => None
  | c :: rest =>
      if c =? 34 then Some (rev acc, rest)
      else if c =? 92 then
        match rest with
        | [] => None
        | e :: rest1 =>
            if e =? 117 then
              match rest1 with
              | a :: b :: c4 :: d :: rest2 =>
                  match hex4 a b c4 d with
                  | Some u => parseChars rest2 (u :: acc)
                  | None => None
                  end
              | _ => None
              end
            else match escape e with
                 | Some u => parseChars rest1 (u :: acc)
                 | None => None
                 end
        end
      else if c <? 32 then None
      else parseChars rest (c :: acc)
  end.

Fixpoint takeDigits (s : JSString) : JSString * JSString :=
  match s with
  | [] => ([], [])
  | c :: s' =>
      if (48 <=? c) && (c <=? 57)
      then let (ds, rest) := takeDigits s' in (c :: ds, rest)
      else ([], s)
  end.

Definition digitsValue (ds : JSString) : Z :=
  fold_left (fun acc d => acc * 10 + (d - 48)) ds 0.

Definition parseNumber (s : JSString) : option (JSON * JSString) :=
  let (negative, s1) :=
    match s with
    | c :: r => if c =? 45 then (true, r) else (false, s)
    | [] => (false, s)
    end in
  let (ints, s2) := takeDigits s1 in
  match ints with
  | [] => None
  | d :: ints' =>
      if (d =? 48) && negb (Nat.eqb (length ints') 0) then None
      else
        let frac :=
          match s2 with
          | c :: r => if c =? 46 then Some (takeDigits r) else None
          | [] => None
          end in
        let '(fracs, s3, fracOk) :=
          match frac with
          | Some (fs, r) => (fs, r, negb (Nat.eqb (length fs) 0))
          | None => ([], s2, true)
          end in
        let '(expo, s4, expOk) :=
          match s3 with
          | c :: r =>
              if (c =? 101) || (c =? 69) then
                let (sign, r1) :=
                  match r with
                  | g :: r' => if g =? 45 then (-1, r')
                               else if g =? 43 then (1, r') else (1, r)
                  | [] => (1, r)
                  end in
                let (es, r2) := takeDigits r1 in
                (sign * digitsValue es, r2, negb (Nat.eqb (length es) 0))
              else (0, s3, true)
          | [] => (0, s3, true)
          end in
        if fracOk && expOk then
          let m := digitsValue (ints ++ fracs) in
          Some (JNumber (if negative then - m else m)
                        (expo - Z.of_nat (length fracs)), s4)
        else None
  end.

(** A later member of the same name replaces the earlier one. *)
Fixpoint setMember (k : JSString) (v : JSON) (ms : list (JSString * JSON))
  : list (JSString * JSON) :=
  match ms with
  | [] => [(k, v)]
  | (k', v') :: ms' =>
      if JSString_eqb k' k then (k, v) :: ms' else (k', v') :: setMember k v ms'
  end.

Fixpoint parseValue (fuel : nat) (s : JSString) : option (JSON * JSString) :=
  match fuel with
  | O => None
  | S fuel' =>
      match skipWs s with
      | [] => None
      | c :: rest =>
          if c =? 123 then
            match skipWs rest with
            | c1 :: rest1 =>
                if c1 =? 125 then Some (JObject [], rest1)
                else parseMembers fuel' (c1 :: rest1) []
            | [] => None
            end
          else if c =? 91 then
            match skipWs rest with
            | c1 :: rest1 =>
                if c1 =? 93 then Some (JArray [], rest1)
                else parseElements fuel' (c1 :: rest1) []
            | [] => None
            end
          else if c =? 34 then
            match parseChars rest [] with
            | Some (chars, rest1) => Some (JString chars, rest1)
            | None => None
            end
          else if startsWith (c :: rest) (js "true")
          then Some (JBool true, skipn 4 (c :: rest))
          else if startsWith (c :: rest) (js "false")
          then Some (JBool false, skipn 5 (c :: rest))
          else if startsWith (c :: rest) (js "null")
          then Some (JNull, skipn 4 (c :: rest))
          else parseNumber (c :: rest)
      end
  end
with parseElements (fuel : nat) (s : JSString) (acc : list JSON)
  : option (JSON * JSString) :=
  match fuel with
  | O => None
  | S fuel' =>
      match parseValue fuel' s with
      | Some (v, rest) =>
          match skipWs rest with
          | c :: rest1 =>
              if c =? 44 then parseElements fuel' rest1 (v :: acc)
              else if c =? 93 then Some (JArray (rev (v :: acc)), rest1)
              else None
          | [] => None
          end
      | None => None
      end
  end
with parseMembers (fuel : nat) (s : JSString) (acc : list (JSString * JSON))
  : option (JSON * JSString) :=
  match fuel with
  | O => None
  | S fuel' =>
      match skipWs s with
      | q :: rest =>
          if q =? 34 then
            match parseChars rest [] with
            | Some (key, rest1) =>
                match skipWs rest1 with
                | colon :: rest2 =>
                    if colon =? 58 then
                      match parseValue fuel' rest2 with
                      | Some (v, rest3) =>
                          match skipWs rest3 with
                          | c :: rest4 =>
                              if c =? 44
                              then parseMembers fuel' rest4
                                                (setMember key v acc)
                              else if c =? 125
                              then Some (JObject (setMember key v acc), rest4)
                              else None
                          | [] => None
                          end
                      | None => None
                      end
                    else None
                | [] => None
                end
            | None => None
            end
          else None
      | [] => None
      end
  end.

Definition JSON_parse (text : JSString) : option JSON :=
  match parseValue (2 * length text + 4) text with
  | Some (v, rest) => match skipWs rest with [] => Some v | _ => None end
  | None => None
  end.

(** Lower-casing of the code units below U+0100; the others are kept. *)
Definition toLowerCase (s : JSString) : JSString :=
  map (fun c =>
         if ((65 <=? c) && (c <=? 90))
            || ((192 <=? c) && (c <=? 222) && negb (c =? 215))
         then c + 32 else c) s.

End Ref.

(** The reference host: the clock starts at 1 700 000 000 000 ms and
    advances by one millisecond per reading. *)
Definition refHost : Host := {|
  JSON_parse := Ref.JSON_parse;
  toLowerCase := Ref.toLowerCase;
  Date_now := fun k => 1700000000000 + Z.of_nat k;
  Math_random := fun k => Z.of_nat k
|}.

(* ================================================================== *)
(** ** The state of the Chat component and of what it talks to *)

Inductive Role := user | assistant | system.

(** [actionMode]: [None] is [null]. *)
Inductive ActionMode := replay | supplier_response.

Inductive Phase := initial | awaiting_supplier.

(** [actionMode === 'replay'] and the like. *)
Definition isMode (actionMode : option ActionMode) (mode : ActionMode) : bool :=
  match actionMode, mode with
  | Some replay, replay => true
  | Some supplier_response, supplier_response => true
  | _, _ => false
  end.

Definition isPhase (workflowPhase phase : Phase) : bool :=
  match workflowPhase, phase with
  | initial, initial => true
  | awaiting_supplier, awaiting_supplier => true
  | _, _ => false
  end.

(** The ways the component builds a message id. *)
Inductive MessageId :=
| id_literal (s : JSString)            (* '1' *)
| id_history (index : nat)             (* `history_${index}` *)
| id_now (t : Z)                       (* Date.now().toString() *)
| id_now_random (t : Z) (r : Z).  (* Date.now().toString() + Math.random() *)

Module Message.
Record t := mk {
  id : MessageId;
  role : Role;
  content : JSValue;
  timestamp : Z;          (* the time value of the Date object *)
  step : JSValue;
  type : JSString
}.
End Message.

Module SessionInfo.
Record t := mk {
  id : JSValue;
  status : JSValue;
  intent : JSValue;
  confidence : JSValue
}.
End SessionInfo.

(** A template literal with at most one interpolated value. *)
Inductive Template :=
| text (s : JSString)
| interpolate (prefix : JSString) (v : JSValue).

Record Toast := { toast_message : Template; toast_type : JSString }.

(** A pending [setTimeout] callback, with what its closure captured. *)
Inductive Callback :=
| showPostActionsLater                  (* () => setShowPostActions(true) *)
| afterDone (workflowPhase : Phase).    (* the callback of the done line *)

Record Timer := { callback : Callback; delay : Z }.

(** The requests [apiService] sends (services/api.js). *)
Module apiService.
Inductive Request :=
| startWorkflow (userInput : JSString) (inputType : JSString)
| continueWorkflow (sessionId : JSValue) (supplierResponse : JSString)
| replayWorkflow (sessionId : JSValue) (newInput : JSString)
| getWorkflowHistory (sessionId : JSString)
| getWorkflowState (sessionId : JSString).
End apiService.

Record State := {
  messages : list Message.t;
  inputMessage : JSString;
  isLoading : bool;
  showPostActions : bool;
  actionMode : option ActionMode;
  workflowPhase : Phase;
  sessionInfo : SessionInfo.t;
  currentSession : JSValue;
  workflowStatus : JSString;
  toast : option Toast;
  timers : list Timer;
  requests : list apiService.Request;
  navigations : list Template;
  clock : nat;
  draws : nat
}.

(** [setMessages(prev => update(prev))]: a functional update of the store. *)
Definition setMessages (update : list Message.t -> list Message.t)
  (st : State) : State :=
  {| messages := update (messages st); inputMessage := inputMessage st;
     isLoading := isLoading st; showPostActions := showPostActions st;
     actionMode := actionMode st; workflowPhase := workflowPhase st;
     sessionInfo := sessionInfo st; currentSession := currentSession st;
     workflowStatus := workflowStatus st; toast := toast st;
     timers := timers st; requests := requests st;
     navigations := navigations st; clock := clock st; draws := draws st |}.

(** [setInputMessage(value)]. *)
Definition setInputMessage (value : JSString) (st : State) : State :=
  {| messages := messages st; inputMessage := value;
     isLoading := isLoading st; showPostActions := showPostActions st;
     actionMode := actionMode st; workflowPhase := workflowPhase st;
     sessionInfo := sessionInfo st; currentSession := currentSession st;
     workflowStatus := workflowStatus st; toast := toast st;
     timers := timers st; requests := requests st;
     navigations := navigations st; clock := clock st; draws := draws st |}.

(** [setIsLoading(value)]. *)
Definition setIsLoading (value : bool) (st : State) : State :=
  {| messages := messages st; inputMessage := inputMessage st;
     isLoading := value; showPostActions := showPostActions st;
     actionMode := actionMode st; workflowPhase := workflowPhase st;
     sessionInfo := sessionInfo st; currentSession := currentSession st;
     workflowStatus := workflowStatus st; toast := toast st;
     timers := timers st; requests := requests st;
     navigations := navigations st; clock := clock st; draws := draws st |}.

(** [setShowPostActions(value)]. *)
Definition setShowPostActions (value : bool) (st : State) : State :=
  {| messages := messages st; inputMessage := inputMessage st;
     isLoading := isLoading st; showPostActions := value;
     actionMode := actionMode st; workflowPhase := workflowPhase st;
     sessionInfo := sessionInfo st; currentSession := currentSession st;
     workflowStatus := workflowStatus st; toast := toast st;
     timers := timers st; requests := requests st;
     navigations := navigations st; clock := clock st; draws := draws st |}.

(** [setActionMode(value)]. *)
Definition setActionMode (value : option ActionMode) (st : State) : State :=
  {| messages := messages st; inputMessage := inputMessage st;
     isLoading := isLoading st; showPostActions := showPostActions st;
     actionMode := value; workflowPhase := workflowPhase st;
     sessionInfo := sessionInfo st; currentSession := currentSession st;
     workflowStatus := workflowStatus st; toast := toast st;
     timers := timers st; requests := requests st;
     navigations := navigations st; clock := clock st; draws := draws st |}.

(** [setWorkflowPhase(value)]. *)
Definition setWorkflowPhase (value : Phase) (st : State) : State :=
  {| messages := messages st; inputMessage := inputMessage st;
     isLoading := isLoading st; showPostActions := showPostActions st;
     actionMode := actionMode st; workflowPhase := value;
     sessionInfo := sessionInfo st; currentSession := currentSession st;
     workflowStatus := workflowStatus st; toast := toast st;
     timers := timers st; requests := requests st;
     navigations := navigations st; clock := clock st; draws := draws st |}.

(** [setSessionInfo(value)]. *)
Definition setSessionInfo (value : SessionInfo.t) (st : State) : State :=
  {| messages := messages st; inputMessage := inputMessage st;
     isLoading := isLoading st; showPostActions := showPostActions st;
     actionMode := actionMode st; workflowPhase := workflowPhase st;
     sessionInfo := value; currentSession := currentSession st;
     workflowStatus := workflowStatus st; toast := toast st;
     timers := timers st; requests := requests st;
     navigations := navigations st; clock := clock st; draws := draws st |}.

(** [actions.setCurrentSession(session)]: the reducer's SET_CURRENT_SESSION. *)
Definition setCurrentSession (session : JSValue) (st : State) : State :=
  {| messages := messages st; inputMessage := inputMessage st;
     isLoading := isLoading st; showPostActions := showPostActions st;
     actionMode := actionMode st; workflowPhase := workflowPhase st;
     sessionInfo := sessionInfo st; currentSession := session;
     workflowStatus := workflowStatus st; toast := toast st;
     timers := timers st; requests := requests st;
     navigations := navigations st; clock := clock st; draws := draws st |}.

(** [actions.setWorkflowStatus(status)]: the reducer's SET_WORKFLOW_STATUS. *)
Definition setWorkflowStatus (status : JSString) (st : State) : State :=
  {| messages := messages st; inputMessage := inputMessage st;
     isLoading := isLoading st; showPostActions := showPostActions st;
     actionMode := actionMode st; workflowPhase := workflowPhase st;
     sessionInfo := sessionInfo st; currentSession := currentSession st;
     workflowStatus := status; toast := toast st; timers := timers st;
     requests := requests st; navigations := navigations st;
     clock := clock st; draws := draws st |}.

(** [actions.showToast(message, type)]: the reducer's SHOW_TOAST. *)
Definition showToast (payload : Toast) (st : State) : State :=
  {| messages := messages st; inputMessage := inputMessage st;
     isLoading := isLoading st; showPostActions := showPostActions st;
     actionMode := actionMode st; workflowPhase := workflowPhase st;
     sessionInfo := sessionInfo st; currentSession := currentSession st;
     workflowStatus := workflowStatus st; toast := Some payload;
     timers := timers st; requests := requests st;
     navigations := navigations st; clock := clock st; draws := draws st |}.

(** [setTimeout(callback, delay)]: one more pending timer. *)
Definition setTimeout (timer : Timer) (st : State) : State :=
  {| messages := messages st; inputMessage := inputMessage st;
     isLoading := isLoading st; showPostActions := showPostActions st;
     actionMode := actionMode st; workflowPhase := workflowPhase st;
     sessionInfo := sessionInfo st; currentSession := currentSession st;
     workflowStatus := workflowStatus st; toast := toast st;
     timers := timers st ++ [timer]; requests := requests st;
     navigations := navigations st; clock := clock st; draws := draws st |}.

(** A request issued through [apiService]. *)
Definition request (call : apiService.Request) (st : State) : State :=
  {| messages := messages st; inputMessage := inputMessage st;
     isLoading := isLoading st; showPostActions := showPostActions st;
     actionMode := actionMode st; workflowPhase := workflowPhase st;
     sessionInfo := sessionInfo st; currentSession := currentSession st;
     workflowStatus := workflowStatus st; toast := toast st;
     timers := timers st; requests := requests st ++ [call];
     navigations := navigations st; clock := clock st; draws := draws st |}.

(** [navigate(to, { replace: true })]. *)
Definition navigate (to : Template) (st : State) : State :=
  {| messages := messages st; inputMessage := inputMessage st;
     isLoading := isLoading st; showPostActions := showPostActions st;
     actionMode := actionMode st; workflowPhase := workflowPhase st;
     sessionInfo := sessionInfo st; currentSession := currentSession st;
     workflowStatus := workflowStatus st; toast := toast st;
     timers := timers st; requests := requests st;
     navigations := navigations st ++ [to]; clock := clock st;
     draws := draws st |}.

(** The clock was read [readings] more times. *)
Definition readClock (readings : nat) (st : State) : State :=
  {| messages := messages st; inputMessage := inputMessage st;
     isLoading := isLoading st; showPostActions := showPostActions st;
     actionMode := actionMode st; workflowPhase := workflowPhase st;
     sessionInfo := sessionInfo st; currentSession := currentSession st;
     workflowStatus := workflowStatus st; toast := toast st;
     timers := timers st; requests := requests st;
     navigations := navigations st; clock := (clock st + readings)%nat;
     draws := draws st |}.

(** [Math.random] was called [count] more times. *)
Definition drawRandom (count : nat) (st : State) : State :=
  {| messages := messages st; inputMessage := inputMessage st;
     isLoading := isLoading st; showPostActions := showPostActions st;
     actionMode := actionMode st; workflowPhase := workflowPhase st;
     sessionInfo := sessionInfo st; currentSession := currentSession st;
     workflowStatus := workflowStatus st; toast := toast st;
     timers := timers st; requests := requests st;
     navigations := navigations st; clock := clock st;
     draws := (draws st + count)%nat |}.

(** The greeting the timeline is seeded with. *)
Definition greeting : JSString :=
  js "Hello! I'm your textile procurement assistant. I can help you with:"
  ++ [10; 10; 8226] ++ js " Getting quotes for fabric purchases"
  ++ [10; 8226] ++ js " Finding suppliers"
  ++ [10; 8226] ++ js " Negotiating terms"
  ++ [10; 8226] ++ js " Generating contracts"
  ++ [10; 10] ++ js "What would you like to work on today?".

(** The state of a freshly mounted component at the route's [sessionId]
    ([None] when the route has none). *)
Definition mount (host : Host) (sessionId : option JSString) : State := {|
  messages := [ Message.mk (id_literal (js "1")) assistant (str greeting)
                           (Date_now host 0 - 60000) undefined
                           (js "greeting") ];
  inputMessage := [];
  isLoading := false;
  showPostActions := false;
  actionMode := None;
  workflowPhase := initial;
  sessionInfo :=
    SessionInfo.mk
      (match sessionId with
       | Some (c :: s) => str (c :: s)
       | _ => str (js "new")          (* sessionId || 'new' *)
       end)
      (str (js "active")) (Some JNull) (Some JNull);
  currentSession := Some JNull;
  workflowStatus := js "idle";
  toast := None;
  timers := [];
  requests := [];
  navigations := [];
  clock := 1;
  draws := 0
|}.

(* ================================================================== *)
(** ** What the transport delivers *)

Inductive Promise (A : Type) :=
| resolved (a : A)
| rejected (message : JSString).       (* the [message] of the error *)
Arguments resolved {A} a.
Arguments rejected {A} message.

(** The body of a response as [reader.read()] delivers it: the chunks in
    turn, then [done], or a rejection once the chunks are read. *)
Record Body := {
  chunks : list (list Z);
  failure : option JSString
}.

Record Response := {
  ok : bool;
  status : Z;
  responseText : Promise JSString;     (* response.text() *)
  body : Body
}.

(** The outcome of running a block: it ends normally or throws an error
    with the given message; the state written so far is kept either way. *)
Inductive Completion :=
| normal (st : State)
| throws (message : JSString) (st : State).

(* ================================================================== *)
(** ** The engine *)

(** One line of the stream, as the loop of [processStreamingResponse]
    tells them apart. *)
Inductive WireEvent :=
| data (payload : JSON)     (* a 'data: ' line whose rest JSON.parse accepts *)
| doneSignal.               (* an 'event: done' line *)

Section Engine.

Variable host : Host.

(** Lines 213-221 and 245 of Chat.jsx: trim; skip the empty line; a line
    that starts with 'data: ' is parsed from its seventh unit on and is
    dropped when [JSON.parse] throws; otherwise a line that starts with
    'event: done' is the completion marker; any other line is dropped. *)
Definition decodeLine (line : JSString) : option WireEvent :=
  let trimmedLine := trim line in
  match trimmedLine with
  | [] => None
  | _ =>
      if startsWith trimmedLine (js "data: ") then
        let dataStr := slice 6 trimmedLine in
        match JSON_parse host dataStr with
        | Some payload => Some (data payload)
        | None => None
        end
      else if startsWith trimmedLine (js "event: done") then Some doneSignal
      else None
  end.

Definition prop (payload : JSON) (key : JSString) : JSValue :=
  match getProp payload key with
  | Some v => v
  | None => undefined
  end.

(** [addAssistantMessage(content, step)]. *)
Definition addAssistantMessage (content step : JSValue) (st : State) : State :=
  let message :=
    Message.mk
      (id_now_random (Date_now host (clock st)) (Math_random host (draws st)))
      assistant content (Date_now host (S (clock st))) step (js "response") in
  setMessages (fun prev => prev ++ [message]) (drawRandom 1 (readClock 2 st)).

(** [addSystemMessage(content, type)]. *)
Definition addSystemMessage (content : JSString) (type : JSString) (st : State)
  : State :=
  let message :=
    Message.mk
      (id_now_random (Date_now host (clock st)) (Math_random host (draws st)))
      system (str content) (Date_now host (S (clock st))) undefined type in
  setMessages (fun prev => prev ++ [message]) (drawRandom 1 (readClock 2 st)).

(** Lines 222-239: the body of the [try] once [JSON.parse] returned.
    Reading [data.message] of [null] throws; the [catch] swallows it. *)
Definition onData (isNewWorkflow : bool) (payload : JSON) (st : State)
  : State :=
  match payload with
  | JNull => st
  | _ =>
      let st1 :=
        if truthy (prop payload (js "message"))
        then addAssistantMessage (prop payload (js "message"))
                                 (prop payload (js "step")) st
        else st in
      if truthy (prop payload (js "session_id")) && isNewWorkflow then
        showToast
          {| toast_message :=
               interpolate (js "Session started! Intent: ")
                           (prop payload (js "intent"));
             toast_type := js "success" |}
          (setCurrentSession (Some payload)
             (navigate (interpolate (js "/chat/")
                                    (prop payload (js "session_id")))
                (setSessionInfo
                   (SessionInfo.mk (prop payload (js "session_id"))
                                   (prop payload (js "status"))
                                   (prop payload (js "intent"))
                                   (prop payload (js "intent_confidence")))
                   st1)))
      else st1
  end.

(** The handlers of one render.  [render] is the state the closures of that
    render captured: they read [workflowPhase], [actionMode], [sessionInfo],
    [inputMessage] and [isLoading] from it, whatever the store holds by the
    time they run. *)
Section Render.

Variable render : State.

(** Lines 246-256: the done line only schedules a callback; the callback
    closes over this render's [workflowPhase]. *)
Definition onEvent (isNewWorkflow : bool) (event : WireEvent) (st : State)
  : State :=
  match event with
  | data payload => onData isNewWorkflow payload st
  | doneSignal =>
      setTimeout {| callback := afterDone (workflowPhase render);
                    delay := 1000 |} st
  end.

(** The body of [for (const line of lines)]. *)
Definition processLine (isNewWorkflow : bool) (st : State) (line : JSString)
  : State :=
  match decodeLine line with
  | Some event => onEvent isNewWorkflow event st
  | None => st
  end.

(** The [while (true)] loop: each chunk is decoded, split at line feeds and
    its pieces are handled one by one, before the next chunk is read. *)
Fixpoint readLoop (isNewWorkflow : bool) (decoder : TextDecoder.t)
  (pending : list (list Z)) (failure : option JSString) (st : State)
  : Completion :=
  match pending with
  | [] =>
      match failure with
      | None => normal st                         (* if (done) break *)
      | Some message => throws message st
      end
  | value :: pending' =>
      let (decoder', chunk) := TextDecoder.decode decoder value in
      let lines := split LF chunk in
      readLoop isNewWorkflow decoder' pending' failure
               (fold_left (processLine isNewWorkflow) lines st)
  end.

Definition processStreamingResponse (response : Response)
  (isNewWorkflow : bool) (st : State) : Completion :=
  readLoop isNewWorkflow TextDecoder.new
           (chunks (body response)) (failure (body response)) st.

(** [HTTP ${response.status}: ${errorText}]. *)
Definition httpError (response : Response) (errorText : JSString) : JSString :=
  js "HTTP " ++ toString (status response) ++ js ": " ++ errorText.

(** The common [try] block of the three operations once the request is
    sent: await the response, throw on a status that is not ok, run
    [before] and consume the stream. *)
Definition consume (fetched : Promise Response) (isNewWorkflow : bool)
  (before : State -> State) (st : State) : Completion :=
  match fetched with
  | rejected message => throws message st
  | resolved response =>
      if negb (ok response) then
        match responseText response with
        | resolved errorText => throws (httpError response errorText) st
        | rejected message => throws message st
        end
      else processStreamingResponse response isNewWorkflow (before st)
  end.

(** The common [catch] block: a system message of type 'error' and a
    toast. *)
Definition recover (failed toastMessage : JSString) (result : Completion)
  : State :=
  match result with
  | normal st => st
  | throws message st =>
      showToast {| toast_message := text toastMessage;
                   toast_type := js "error" |}
                (addSystemMessage (failed ++ message) (js "error") st)
  end.

Definition startNewWorkflow (userInput : JSString)
  (fetched : Promise Response) (st : State) : State :=
  recover (js "Failed to start workflow: ") (js "Failed to start workflow")
    (consume fetched true (fun st => st)
       (request (apiService.startWorkflow userInput (js "quote")) st)).

Definition continueWorkflow (sessionId : JSValue) (supplierResponse : JSString)
  (fetched : Promise Response) (st : State) : State :=
  recover (js "Failed to continue workflow: ")
          (js "Failed to continue workflow")
    (consume fetched false (fun st => st)
       (request (apiService.continueWorkflow sessionId supplierResponse) st)).

Definition replayWorkflow (newInput : JSString)
  (fetched : Promise Response) (st : State) : State :=
  recover (js "Failed to replay workflow: ") (js "Failed to replay workflow")
    (consume fetched false (setWorkflowPhase awaiting_supplier)
       (request (apiService.replayWorkflow
                   (SessionInfo.id (sessionInfo render)) newInput) st)).

(** The guard of [handleSendMessage]: [!inputMessage.trim() || isLoading]. *)
Definition refuses : bool :=
  match trim (inputMessage render) with
  | [] => true
  | _ => isLoading render
  end.

(** [handleSendMessage] up to its [try]: the user's message is appended and
    the component is marked as loading. *)
Definition beginSend (st : State) : State :=
  let userMessage :=
    Message.mk (id_now (Date_now host (clock st))) user
               (str (inputMessage render)) (Date_now host (S (clock st)))
               undefined
               (match actionMode render with
                | Some replay => js "replay"
                | Some supplier_response => js "supplier_response"
                | None => js "user_input"     (* actionMode || 'user_input' *)
                end) in
  setWorkflowStatus (js "processing")
    (setShowPostActions false
       (setIsLoading true
          (setInputMessage []
             (setMessages (fun prev => prev ++ [userMessage])
                (readClock 2 st))))).

(** The [try] of [handleSendMessage]: which operation is invoked.  The
    operations catch whatever they throw, so the handler's own [catch] has
    nothing to catch. *)
Definition dispatch (fetched : Promise Response) (st : State) : State :=
  let currentInput := inputMessage render in
  if isMode (actionMode render) replay then
    replayWorkflow currentInput fetched st
  else if isMode (actionMode render) supplier_response
          || isPhase (workflowPhase render) awaiting_supplier then
    continueWorkflow (SessionInfo.id (sessionInfo render)) currentInput
                     fetched st
  else if strictEqualsString (SessionInfo.id (sessionInfo render)) (js "new")
  then startNewWorkflow currentInput fetched st
  else continueWorkflow (SessionInfo.id (sessionInfo render)) currentInput
                        fetched st.

(** The [finally] of [handleSendMessage]. *)
Definition endSend (st : State) : State :=
  setWorkflowStatus (js "idle") (setActionMode None (setIsLoading false st)).

(** [handleSendMessage], given what the one request it sends comes back
    with. *)
Definition handleSendMessage (fetched : Promise Response) (st : State)
  : State :=
  if refuses then st
  else endSend (dispatch fetched (beginSend st)).

End Render.

(** A pending timer fires. *)
Definition fire (timer : Timer) (st : State) : State :=
  match callback timer with
  | showPostActionsLater => setShowPostActions true st
  | afterDone workflowPhase =>
      match workflowPhase with
      | awaiting_supplier =>
          showToast
            {| toast_message :=
                 text (js "Enter supplier response to continue workflow");
               toast_type := js "info" |}
            (setActionMode (Some supplier_response) st)
      | initial => setShowPostActions true st
      end
  end.

(** Every pending timer fires, oldest first. *)
Definition fireAll (st : State) : State :=
  fold_left (fun st timer => fire timer st) (timers st)
    {| messages := messages st; inputMessage := inputMessage st;
       isLoading := isLoading st; showPostActions := showPostActions st;
       actionMode := actionMode st; workflowPhase := workflowPhase st;
       sessionInfo := sessionInfo st; currentSession := currentSession st;
       workflowStatus := workflowStatus st; toast := toast st;
       timers := []; requests := requests st;
       navigations := navigations st; clock := clock st; draws := draws st |}.

(** The user submits: the handler of the latest render runs on the store. *)
Definition submit (fetched : Promise Response) (st : State) : State :=
  handleSendMessage st fetched st.

(** [handleReplayWorkflow]. *)
Definition handleReplayWorkflow (st : State) : State :=
  showToast {| toast_message := text (js "Enter new input for replay workflow");
               toast_type := js "info" |}
    (setWorkflowPhase initial
       (setActionMode (Some replay) (setShowPostActions false st))).

(** [cancelAction], run from [render]. *)
Definition cancelAction (render : State) (st : State) : State :=
  setInputMessage []
    (match workflowPhase render with
     | awaiting_supplier =>
         setActionMode (Some supplier_response) (setActionMode None st)
     | initial => setShowPostActions true (setActionMode None st)
     end).

(** *** Resuming a session: [loadSessionHistory] *)

(** The payload of the history endpoint: its [messages_log] is absent
    ([None]) or an array of records. *)
Record History := { messages_log : option (list JSON) }.

(** [history.messages_log.map((msg, index) => ...)]: the clock is read once
    per record; reading [msg.message] of a [null] record throws. *)
Fixpoint mapHistory (len index : nat) (log : list JSON) (readings : nat)
  : nat * option (list Message.t) :=
  match log with
  | [] => (readings, Some [])
  | msg :: log' =>
      match msg with
      | JNull => (readings, None)
      | _ =>
          let message :=
            Message.mk (id_history index) assistant (prop msg (js "message"))
              (Date_now host readings
               - (Z.of_nat len - Z.of_nat index) * 60000)
              (prop msg (js "step")) (js "response") in
          let (readings', rest) := mapHistory len (S index) log' (S readings) in
          (readings', option_map (cons message) rest)
      end
  end.

(** The test on the last message: its content, lower-cased, includes one of
    the three keywords.  [None]: the content is no string, and calling its
    [toLowerCase] throws. *)
Definition mentionsSupplier (content : JSValue) : option bool :=
  match content with
  | Some (JString s) =>
      Some (includes (toLowerCase host s) (js "supplier")
            || includes (toLowerCase host s) (js "quote")
            || includes (toLowerCase host s) (js "negotiat"))
  | _ => None
  end.

(** The [if (history.messages_log && history.messages_log.length > 0)]
    block. *)
Definition hydrate (log : list JSON) (st : State) : Completion :=
  match mapHistory (length log) 0 log (clock st) with
  | (readings, None) =>
      throws (js "Cannot read properties of null")
             (readClock (readings - clock st) st)
  | (readings, Some historyMessages) =>
      let st1 :=
        setMessages (fun prev => prev ++ historyMessages)
                    (readClock (readings - clock st) st) in
      match last (map (fun m => Some m) historyMessages) None with
      | None => normal (setTimeout {| callback := showPostActionsLater;
                                      delay := 500 |} st1)
      | Some lastMessage =>
          match mentionsSupplier (Message.content lastMessage) with
          | None => throws (js "toLowerCase is not a function") st1
          | Some found =>
              normal
                (setTimeout {| callback := showPostActionsLater; delay := 500 |}
                   (if found then setWorkflowPhase awaiting_supplier st1
                    else st1))
          end
      end
  end.

(** [loadSessionHistory] at the route's [sessionId], given what the two
    requests come back with. *)
Definition loadSessionHistory (sessionId : JSString)
  (history : Promise History) (sessionState : Promise JSON) (st : State)
  : State :=
  let st0 := request (apiService.getWorkflowHistory sessionId)
                     (setIsLoading true st) in
  let afterHistory :=
    match history with
    | rejected message => throws message st0
    | resolved payload =>
        match messages_log payload with
        | Some (msg :: log) => hydrate (msg :: log) st0
        | _ => normal st0
        end
    end in
  let result :=
    match afterHistory with
    | throws message st1 => throws message st1
    | normal st1 =>
        let st2 := request (apiService.getWorkflowState sessionId) st1 in
        match sessionState with
        | rejected message => throws message st2
        | resolved JNull => throws (js "Cannot read properties of null") st2
        | resolved payload =>
            normal
              (setCurrentSession (Some payload)
                 (setSessionInfo
                    (SessionInfo.mk (str sessionId)
                                    (prop payload (js "status"))
                                    (prop payload (js "intent"))
                                    (prop payload (js "intent_confidence")))
                    st2))
        end
    end in
  setIsLoading false
    (match result with
     | normal st3 => st3
     | throws _ st3 =>
         showToast
           {| toast_message := text (js "Failed to load session history");
              toast_type := js "error" |} st3
     end).

End Engine.

(* ================================================================== *)
(** ** Views of the stream used to state the properties *)

Section Views.

Variable host : Host.

(** The events of a list of lines, in order: a line that [decodeLine] drops
    contributes none. *)
Definition decodeLines (lines : list JSString) : list WireEvent :=
  flat_map (fun line => match decodeLine host line with
                        | Some event => [event]
                        | None => []
                        end) lines.

(** The events of one decoded chunk. *)
Definition decodeChunk (chunk : JSString) : list WireEvent :=
  decodeLines (split LF chunk).

(** The events [readLoop] handles for the chunks still to read, in order. *)
Fixpoint wireEvents (decoder : TextDecoder.t) (pending : list (list Z))
  : list WireEvent :=
  match pending with
  | [] => []
  | value :: pending' =>
      let (decoder', chunk) := TextDecoder.decode decoder value in
      decodeChunk chunk ++ wireEvents decoder' pending'
  end.

End Views.


(** The state a block leaves behind, however it ended. *)
Definition finalState (c : Completion) : State :=
  match c with
  | normal st => st
  | throws _ st => st
  end.

(** How a read loop ends once its chunks are handled. *)
Definition finish (failure : option JSString) (st : State) : Completion :=
  match failure with
  | None => normal st
  | Some message => throws message st
  end.

(** A chunk that ends with the line-feed byte. *)
Definition endsWithLF (chunk : list Z) : Prop := exists a, chunk = a ++ [LF].

(** A chunking whose every boundary falls right after a line feed. *)
Definition lineAligned (pending : list (list Z)) : Prop :=
  Forall endsWithLF (removelast pending).


(** The data event carries a truthy [session_id]. *)
Definition carriesSessionId (event : WireEvent) : bool :=
  match event with
  | data payload => truthy (prop payload (js "session_id"))
  | doneSignal => false
  end.

(** The session info [onData] writes from a payload. *)
Definition sessionInfoOf (payload : JSON) : SessionInfo.t :=
  SessionInfo.mk (prop payload (js "session_id")) (prop payload (js "status"))
                 (prop payload (js "intent"))
                 (prop payload (js "intent_confidence")).

(** The request never got an ok response: it was rejected, or the status
    was not a success. *)
Definition transportFailure (fetched : Promise Response) : Prop :=
  match fetched with
  | rejected _ => True
  | resolved response => ok response = false
  end.

(** The bytes of an ASCII literal. *)
Definition bytes (s : string) : list Z := js s.
Definition bytesq (s : string) : list Z := jsq s.

(** A response with status 200 whose body arrives in the given chunks. *)
Definition okResponse (pending : list (list Z)) : Response :=
  {| ok := true; status := 200; responseText := resolved [];
     body := {| chunks := pending; failure := None |} |}.

Definition streaming (pending : list (list Z)) : Promise Response :=
  resolved (okResponse pending).

(* ================================================================== *)
(** ** Concrete streams and states used in the examples *)

Module Examples.

(** One data line, delivered whole and cut in the middle of the line. *)
Definition wholeLine : list (list Z) :=
  [bytesq "data: {'message':'hi'}" ++ [LF]].
Definition cutLine : list (list Z) :=
  [bytesq "data: {'mess"; bytesq "age':'hi'}" ++ [LF]].


(** A line that only starts like the completion marker. *)
Definition doneAndMore : JSString := js "event: done-not-yet".

(** The textarea's [onChange]: [setInputMessage(e.target.value)]. *)
Definition onChange (value : JSString) (st : State) : State :=
  setInputMessage value st.

(** The stream of a successful start, as the service sends it. *)
Definition startStream : list (list Z) :=
  [bytesq "data: {'message':'Searching suppliers...','step':'search'}" ++ [LF];
   bytesq "data: {'message':'Found 8 suppliers','step':'search',"
     ++ bytesq "'session_id':'abc123','status':'active',"
     ++ bytesq "'intent':'quote_request','intent_confidence':0.92}"
     ++ [LF] ++ bytes "event: done" ++ [LF]].

(** A session established by a first submission, its timers fired. *)
Definition established : State :=
  fireAll
    (submit refHost (streaming startStream)
       (onChange (js "I need 5000 meters of organic cotton canvas")
                 (mount refHost None))).

(** The user asks for a replay and types the new input. *)
Definition replayReady : State :=
  onChange (js "I need silk fabric instead") (handleReplayWorkflow established).

Definition replayStream : list (list Z) :=
  [bytesq "data: {'message':'Replayed with new input'}" ++ [LF]
   ++ bytes "event: done" ++ [LF]].

(** A start stream in which two events carry a session id. *)
Definition twoIds : list (list Z) :=
  [bytesq "data: {'session_id':'first','status':'active'}" ++ [LF]
   ++ bytesq "data: {'session_id':'second','status':'active'}" ++ [LF]
   ++ bytes "event: done" ++ [LF]].

Definition firstSubmission : State :=
  onChange (js "I need 5000 meters of organic cotton canvas")
           (mount refHost None).

(** A session waiting for the supplier, the user having typed the reply. *)
Definition replyReady : State :=
  onChange (js "We can offer $5.50 per meter")
           (setWorkflowPhase awaiting_supplier established).

(** A persisted history of two records, the last one about quotes. *)
Definition historyLog : list JSON :=
  [JObject [(js "step", JString (js "search"));
            (js "message", JString (js "Found 8 matches"))];
   JObject [(js "step", JString (js "quote"));
            (js "message", JString (js "Generated QUOTE for review"))]].

Definition sessionStatePayload : JSON :=
  JObject [(js "status", JString (js "active"));
           (js "intent", JString (js "quote_request"));
           (js "intent_confidence", JNumber 92 (-2))].

End Examples.

(** The messages [mapHistory] builds when no record is [null]. *)
Fixpoint hydrated (host : Host) (len index : nat) (log : list JSON)
  (readings : nat) : list Message.t :=
  match log with
  | [] => []
  | msg :: log' =>
      Message.mk (id_history index) assistant (prop msg (js "message"))
                 (Date_now host readings
                  - (Z.of_nat len - Z.of_nat index) * 60000)
                 (prop msg (js "step")) (js "response")
      :: hydrated host len (S index) log' (S readings)
  end.

(** The clock never runs backwards. *)
Definition monotone (host : Host) : Prop :=
  forall i j : nat, (i <= j)%nat -> Date_now host i <= Date_now host j.

(** The keyword test of [loadSessionHistory] on a record's message, false
    when the message is no string. *)
Definition namesSupplierStage (host : Host) (record : JSON) : bool :=
  match mentionsSupplier host (prop record (js "message")) with
  | Some found => found
  | None => false
  end.


(* ================================================================== *)
(** ** The rest of the Chat component *)

(** The greeting [startNewChat] seeds the timeline with. *)
Definition newChatGreeting : JSString :=
  js "Hello! I'm your textile procurement assistant. I can help you with "
  ++ js "quotes, supplier sourcing, negotiations, and contracts. "
  ++ js "What would you like to work on today?".

(** [startNewChat]: the timeline is replaced by one greeting and the
    session is reset; [isLoading], the input and the pending timers are not
    touched. *)
Definition startNewChat (host : Host) (st : State) : State :=
  showToast {| toast_message := text (js "New chat started");
               toast_type := js "info" |}
    (navigate (text (js "/chat"))
       (setCurrentSession (Some JNull)
          (setWorkflowPhase initial
             (setActionMode None
                (setShowPostActions false
                   (setSessionInfo
                      (SessionInfo.mk (str (js "new")) (str (js "active"))
                                      (Some JNull) (Some JNull))
                      (setMessages
                         (fun _ =>
                            [Message.mk (id_literal (js "1")) assistant
                                        (str newChatGreeting)
                                        (Date_now host (clock st)) undefined
                                        (js "greeting")])
                         (readClock 1 st)))))))).

(** The condition under which the post-conversation panel (Start New Chat,
    Replay Workflow) is rendered:
    [showPostActions && !isLoading && !actionMode
     && workflowPhase === 'initial']. *)
Definition postActionsVisible (render : State) : bool :=
  showPostActions render && negb (isLoading render)
  && negb (match actionMode render with Some _ => true | None => false end)
  && isPhase (workflowPhase render) initial.

(** The condition under which the input area is rendered:
    [!showPostActions || actionMode
     || workflowPhase === 'awaiting_supplier']. *)
Definition inputAreaVisible (render : State) : bool :=
  negb (showPostActions render)
  || (match actionMode render with Some _ => true | None => false end)
  || isPhase (workflowPhase render) awaiting_supplier.

(** The guard of the effect that resumes a session, run in [render] at the
    route's [sessionId] ([None]: the route has none):
    [sessionId && sessionId !== 'new' && sessionInfo.id !== sessionId]. *)
Definition shouldLoadHistory (sessionId : option JSString) (render : State)
  : bool :=
  match sessionId with
  | None => false
  | Some [] => false
  | Some s =>
      negb (JSString_eqb s (js "new"))
      && negb (strictEqualsString (SessionInfo.id (sessionInfo render)) s)
  end.

(** What a data event puts on the timeline: its message and step, when the
    message is truthy. *)
Definition announced (event : WireEvent) : list (JSValue * JSValue) :=
  match event with
  | data payload =>
      if truthy (prop payload (js "message"))
      then [(prop payload (js "message"), prop payload (js "step"))]
      else []
  | doneSignal => []
  end.

(** The callbacks a list of events schedules when handled in [render]. *)
Definition scheduled (render : State) (events : list WireEvent) : list Timer :=
  flat_map (fun event =>
              match event with
              | doneSignal => [{| callback := afterDone (workflowPhase render);
                                  delay := 1000 |}]
              | data _ => []
              end) events.

(* ================================================================== *)
(** ** services/api.js: [handleResponse] *)

Module api.

(** A response read as JSON: [response.json()] resolves to the parsed body
    or rejects. *)
Record JsonResponse := {
  ok : bool;
  status : Z;
  json : Promise JSON
}.

(** How [handleResponse] ends: it returns the parsed body, throws
    [new Error(argument)], throws a TypeError, or passes on the rejection
    of [response.json()]. *)
Inductive Outcome :=
| returned (value : JSON)
| threwError (argument : JSValue)
| threwTypeError
| rejectedWith (message : JSString).

(** [handleResponse(response)]. *)
Definition handleResponse (response : JsonResponse) : Outcome :=
  if negb (ok response) then
    let errorData :=
      match json response with
      | resolved v => v
      | rejected _ => JObject [(js "error", JString (js "Unknown error"))]
      end in
    match errorData with
    | JNull => threwTypeError         (* errorData.detail of null *)
    | _ =>
        threwError
          (if truthy (prop errorData (js "detail"))
           then prop errorData (js "detail")
           else if truthy (prop errorData (js "error"))
           then prop errorData (js "error")
           else str (js "HTTP " ++ toString (status response)))
    end
  else
    match json response with
    | resolved v => returned v
    | rejected message => rejectedWith message
    end.

End api.

(* ================================================================== *)
(** ** context/AppContext.jsx: the reducer and the computed values *)

Module AppContext.

Record state := {
  currentSession : JSValue;
  sessions : JSValue;
  loading : JSValue;
  error : JSValue;
  toast : JSValue;
  workflowStatus : JSValue;
  suppliers : JSValue;
  quotes : JSValue;
  negotiations : JSValue;
  contracts : JSValue;
  preferences : list (JSString * JSON)     (* an object, by its members *)
}.

Definition initialState : state := {|
  currentSession := Some JNull;
  sessions := Some (JArray []);
  loading := Some (JBool false);
  error := Some JNull;
  toast := Some JNull;
  workflowStatus := str (js "idle");
  suppliers := Some (JArray []);
  quotes := Some (JArray []);
  negotiations := Some (JArray []);
  contracts := Some (JArray []);
  preferences := [(js "theme", JString (js "light"));
                  (js "notifications", JBool true);
                  (js "autoSave", JBool true)]
|}.

Record action := { type : JSString; payload : JSValue }.

(** The values of [ActionTypes]. *)
Definition ActionTypes : list JSString :=
  [js "SET_CURRENT_SESSION"; js "UPDATE_SESSIONS"; js "SET_LOADING";
   js "SET_ERROR"; js "SHOW_TOAST"; js "HIDE_TOAST";
   js "SET_WORKFLOW_STATUS"; js "SET_SUPPLIERS"; js "SET_QUOTES";
   js "SET_NEGOTIATIONS"; js "SET_CONTRACTS"; js "UPDATE_PREFERENCES"].

(** The own enumerable properties an object spread [...value] copies: the
    members of an object, the indexed elements of an array or a string,
    nothing for the other values. *)
Fixpoint indexed (index : nat) (items : list JSON) : list (JSString * JSON) :=
  match items with
  | [] => []
  | item :: items' =>
      (toString (Z.of_nat index), item) :: indexed (S index) items'
  end.

Definition spread (value : JSValue) : list (JSString * JSON) :=
  match value with
  | Some (JObject members) => members
  | Some (JArray items) => indexed 0 items
  | Some (JString s) => indexed 0 (map (fun c => JString [c]) s)
  | _ => []
  end.

(** [{ ...target, ...source }] on the members of [target]: a member of the
    same name is replaced, a new one is added.  (The order in which the
    members are enumerated is not modelled.) *)
Definition assign (target source : list (JSString * JSON))
  : list (JSString * JSON) :=
  fold_left (fun members member =>
               Ref.setMember (fst member) (snd member) members)
            source target.

(** [appReducer(state, action)]. *)
Definition appReducer (st : state) (a : action) : state :=
  if JSString_eqb (type a) (js "SET_CURRENT_SESSION") then
    {| currentSession := payload a; sessions := sessions st;
       loading := loading st; error := error st; toast := toast st;
       workflowStatus := workflowStatus st; suppliers := suppliers st;
       quotes := quotes st; negotiations := negotiations st;
       contracts := contracts st; preferences := preferences st |}
  else if JSString_eqb (type a) (js "UPDATE_SESSIONS") then
    {| currentSession := currentSession st; sessions := payload a;
       loading := loading st; error := error st; toast := toast st;
       workflowStatus := workflowStatus st; suppliers := suppliers st;
       quotes := quotes st; negotiations := negotiations st;
       contracts := contracts st; preferences := preferences st |}
  else if JSString_eqb (type a) (js "SET_LOADING") then
    {| currentSession := currentSession st; sessions := sessions st;
       loading := payload a; error := error st; toast := toast st;
       workflowStatus := workflowStatus st; suppliers := suppliers st;
       quotes := quotes st; negotiations := negotiations st;
       contracts := contracts st; preferences := preferences st |}
  else if JSString_eqb (type a) (js "SET_ERROR") then
    {| currentSession := currentSession st; sessions := sessions st;
       loading := loading st; error := payload a; toast := toast st;
       workflowStatus := workflowStatus st; suppliers := suppliers st;
       quotes := quotes st; negotiations := negotiations st;
       contracts := contracts st; preferences := preferences st |}
  else if JSString_eqb (type a) (js "SHOW_TOAST") then
    {| currentSession := currentSession st; sessions := sessions st;
       loading := loading st; error := error st; toast := payload a;
       workflowStatus := workflowStatus st; suppliers := suppliers st;
       quotes := quotes st; negotiations := negotiations st;
       contracts := contracts st; preferences := preferences st |}
  else if JSString_eqb (type a) (js "HIDE_TOAST") then
    {| currentSession := currentSession st; sessions := sessions st;
       loading := loading st; error := error st; toast := Some JNull;
       workflowStatus := workflowStatus st; suppliers := suppliers st;
       quotes := quotes st; negotiations := negotiations st;
       contracts := contracts st; preferences := preferences st |}
  else if JSString_eqb (type a) (js "SET_WORKFLOW_STATUS") then
    {| currentSession := currentSession st; sessions := sessions st;
       loading := loading st; error := error st; toast := toast st;
       workflowStatus := payload a; suppliers := suppliers st;
       quotes := quotes st; negotiations := negotiations st;
       contracts := contracts st; preferences := preferences st |}
  else if JSString_eqb (type a) (js "SET_SUPPLIERS") then
    {| currentSession := currentSession st; sessions := sessions st;
       loading := loading st; error := error st; toast := toast st;
       workflowStatus := workflowStatus st; suppliers := payload a;
       quotes := quotes st; negotiations := negotiations st;
       contracts := contracts st; preferences := preferences st |}
  else if JSString_eqb (type a) (js "SET_QUOTES") then
    {| currentSession := currentSession st; sessions := sessions st;
       loading := loading st; error := error st; toast := toast st;
       workflowStatus := workflowStatus st; suppliers := suppliers st;
       quotes := payload a; negotiations := negotiations st;
       contracts := contracts st; preferences := preferences st |}
  else if JSString_eqb (type a) (js "SET_NEGOTIATIONS") then
    {| currentSession := currentSession st; sessions := sessions st;
       loading := loading st; error := error st; toast := toast st;
       workflowStatus := workflowStatus st; suppliers := suppliers st;
       quotes := quotes st; negotiations := payload a;
       contracts := contracts st; preferences := preferences st |}
  else if JSString_eqb (type a) (js "SET_CONTRACTS") then
    {| currentSession := currentSession st; sessions := sessions st;
       loading := loading st; error := error st; toast := toast st;
       workflowStatus := workflowStatus st; suppliers := suppliers st;
       quotes := quotes st; negotiations := negotiations st;
       contracts := payload a; preferences := preferences st |}
  else if JSString_eqb (type a) (js "UPDATE_PREFERENCES") then
    {| currentSession := currentSession st; sessions := sessions st;
       loading := loading st; error := error st; toast := toast st;
       workflowStatus := workflowStatus st; suppliers := suppliers st;
       quotes := quotes st; negotiations := negotiations st;
       contracts := contracts st;
       preferences := assign (preferences st) (spread (payload a)) |}
  else st.

(** [actions.showToast(message, type)] with the default duration, and
    [actions.hideToast()]. *)
Definition showToast (message : JSON) (toastType : JSON) (st : state) : state :=
  appReducer st
    {| type := js "SHOW_TOAST";
       payload := Some (JObject [(js "message", message);
                                 (js "type", toastType);
                                 (js "duration", JNumber 5000 0)]) |}.

Definition hideToast (st : state) : state :=
  appReducer st {| type := js "HIDE_TOAST"; payload := undefined |}.

(** [actions.setWorkflowStatus(status)]. *)
Definition setWorkflowStatus (status : JSValue) (st : state) : state :=
  appReducer st {| type := js "SET_WORKFLOW_STATUS"; payload := status |}.

(** [actions.updatePreferences(preferences)], as far as the state goes. *)
Definition updatePreferences (changes : JSValue) (st : state) : state :=
  appReducer st {| type := js "UPDATE_PREFERENCES"; payload := changes |}.

(** [computed.canStartNewSession]. *)
Definition canStartNewSession (st : state) : bool :=
  strictEqualsString (workflowStatus st) (js "idle")
  || strictEqualsString (workflowStatus st) (js "completed").

(** [computed.isSessionActive]: [!!state.currentSession]. *)
Definition isSessionActive (st : state) : bool := truthy (currentSession st).

(** [computed.hasError]: [!!state.error]. *)
Definition hasError (st : state) : bool := truthy (error st).

End AppContext.

(** A state whose fields the stream handlers never write: [f] is kept by
    each of the writes below. *)
Definition untouchedByStream {A : Type} (f : State -> A) : Prop :=
  (forall u st, f (setMessages u st) = f st)
  /\ (forall n st, f (readClock n st) = f st)
  /\ (forall n st, f (drawRandom n st) = f st)
  /\ (forall t st, f (showToast t st) = f st)
  /\ (forall v st, f (setCurrentSession v st) = f st)
  /\ (forall t st, f (navigate t st) = f st)
  /\ (forall v st, f (setSessionInfo v st) = f st)
  /\ (forall t st, f (setTimeout t st) = f st)
  /\ (forall r st, f (request r st) = f st)
  /\ (forall p st, f (setWorkflowPhase p st) = f st).

Module MoreExamples.

(** A continue stream: one message, then the completion marker. *)
Definition continueStream : list (list Z) :=
  [bytesq "data: {'message':'Analyzing supplier response','step':'analyze'}"
   ++ [LF] ++ bytes "event: done" ++ [LF]].

(** A body whose reading fails after its first chunk. *)
Definition brokenBody : Response :=
  {| ok := true; status := 200; responseText := resolved [];
     body := {| chunks := [bytesq "data: {'message':'Drafting'}" ++ [LF]];
                failure := Some (js "network error") |} |}.

(** A history with a [null] record in second place. *)
Definition holedLog : list JSON :=
  [JObject [(js "message", JString (js "Found 8 matches"))]; JNull].

(** A history whose last message is no string. *)
Definition numberedLog : list JSON :=
  [JObject [(js "message", JString (js "Found 8 matches"))];
   JObject [(js "message", JNumber 42 0)]].

End MoreExamples.

(* ================================================================== *)
(** ** Callbacks that fire while a call runs *)

(** The pending callbacks are replaced. *)
Definition setTimers (pending : list Timer) (st : State) : State :=
  {| messages := messages st; inputMessage := inputMessage st;
     isLoading := isLoading st; showPostActions := showPostActions st;
     actionMode := actionMode st; workflowPhase := workflowPhase st;
     sessionInfo := sessionInfo st; currentSession := currentSession st;
     workflowStatus := workflowStatus st; toast := toast st;
     timers := pending; requests := requests st;
     navigations := navigations st; clock := clock st; draws := draws st |}.

(** The pending callback at position [index] fires (nothing happens when
    there is none): it leaves the pending ones and runs. *)
Definition fireAt (index : nat) (st : State) : State :=
  match nth_error (timers st) index with
  | Some timer =>
      fire timer
        (setTimers (firstn index (timers st) ++ skipn (S index) (timers st))
                   st)
  | None => st
  end.

(** The callbacks that fire during one [await], one after the other, each
    named by its position among those then pending. *)
Definition fireSome (positions : list nat) (st : State) : State :=
  fold_left (fun st index => fireAt index st) positions st.

(** Which pending callbacks fire at each [await] of a call: while the
    request is awaited, while [response.text()] is, and during each
    [reader.read()] in turn (none during the reads the list does not
    reach).  Any order of firing is allowed; the delays are not
    modelled. *)
Record Waits := {
  duringFetch : list nat;
  duringText : list nat;
  duringReads : list (list nat)
}.

(** No callback fires while the call runs. *)
Definition quiet : Waits :=
  {| duringFetch := []; duringText := []; duringReads := [] |}.

Section Timed.

Variable host : Host.
Variable render : State.

(** The [while (true)] loop of [processStreamingResponse]: before each
    [reader.read()] returns, the callbacks scheduled for that wait fire. *)
Fixpoint readLoopTimed (isNewWorkflow : bool) (decoder : TextDecoder.t)
  (pending : list (list Z)) (failure : option JSString)
  (reads : list (list nat)) (st : State) : Completion :=
  let st := fireSome (hd [] reads) st in
  match pending with
  | [] => finish failure st
  | value :: pending' =>
      let (decoder', chunk) := TextDecoder.decode decoder value in
      let lines := split LF chunk in
      readLoopTimed isNewWorkflow decoder' pending' failure (tl reads)
        (fold_left (processLine host render isNewWorkflow) lines st)
  end.

Variable waits : Waits.

Definition processStreamingResponseTimed (response : Response)
  (isNewWorkflow : bool) (st : State) : Completion :=
  readLoopTimed isNewWorkflow TextDecoder.new (chunks (body response))
                (failure (body response)) (duringReads waits) st.

(** The [try] block of the three operations, with its [await]s. *)
Definition consumeTimed (fetched : Promise Response) (isNewWorkflow : bool)
  (before : State -> State) (st : State) : Completion :=
  let st := fireSome (duringFetch waits) st in
  match fetched with
  | rejected message => throws message st
  | resolved response =>
      if negb (ok response) then
        let st := fireSome (duringText waits) st in
        match responseText response with
        | resolved errorText => throws (httpError response errorText) st
        | rejected message => throws message st
        end
      else processStreamingResponseTimed response isNewWorkflow (before st)
  end.

Definition startNewWorkflowTimed (userInput : JSString)
  (fetched : Promise Response) (st : State) : State :=
  recover host (js "Failed to start workflow: ")
          (js "Failed to start workflow")
    (consumeTimed fetched true (fun st => st)
       (request (apiService.startWorkflow userInput (js "quote")) st)).

Definition continueWorkflowTimed (sessionId : JSValue)
  (supplierResponse : JSString) (fetched : Promise Response) (st : State)
  : State :=
  recover host (js "Failed to continue workflow: ")
          (js "Failed to continue workflow")
    (consumeTimed fetched false (fun st => st)
       (request (apiService.continueWorkflow sessionId supplierResponse) st)).

Definition replayWorkflowTimed (newInput : JSString)
  (fetched : Promise Response) (st : State) : State :=
  recover host (js "Failed to replay workflow: ")
          (js "Failed to replay workflow")
    (consumeTimed fetched false (setWorkflowPhase awaiting_supplier)
       (request (apiService.replayWorkflow
                   (SessionInfo.id (sessionInfo render)) newInput) st)).

(** The [try] of [handleSendMessage]. *)
Definition dispatchTimed (fetched : Promise Response) (st : State) : State :=
  let currentInput := inputMessage render in
  if isMode (actionMode render) replay then
    replayWorkflowTimed currentInput fetched st
  else if isMode (actionMode render) supplier_response
          || isPhase (workflowPhase render) awaiting_supplier then
    continueWorkflowTimed (SessionInfo.id (sessionInfo render)) currentInput
                          fetched st
  else if strictEqualsString (SessionInfo.id (sessionInfo render)) (js "new")
  then startNewWorkflowTimed currentInput fetched st
  else continueWorkflowTimed (SessionInfo.id (sessionInfo render))
                             currentInput fetched st.

(** [handleSendMessage]: the synchronous beginning, the operation with its
    [await]s, and the [finally], which runs as soon as the operation has
    ended. *)
Definition handleSendMessageTimed (fetched : Promise Response) (st : State)
  : State :=
  if refuses render then st
  else endSend (dispatchTimed fetched (beginSend host render st)).

End Timed.

(** A property of the store kept by every write a running call of
    [render] makes, and by every callback that fires meanwhile. *)
Record keptWhileRunning (render : State) (P : State -> Prop) : Prop := {
  kept_setMessages : forall u st, P st -> P (setMessages u st);
  kept_readClock : forall n st, P st -> P (readClock n st);
  kept_drawRandom : forall n st, P st -> P (drawRandom n st);
  kept_showToast : forall t st, P st -> P (showToast t st);
  kept_setCurrentSession : forall v st, P st -> P (setCurrentSession v st);
  kept_navigate : forall t st, P st -> P (navigate t st);
  kept_setSessionInfo : forall v st, P st -> P (setSessionInfo v st);
  kept_setTimeout :
    forall st,
      P st ->
      P (setTimeout {| callback := afterDone (workflowPhase render);
                       delay := 1000 |} st);
  kept_request : forall r st, P st -> P (request r st);
  kept_setWorkflowPhase :
    forall st, P st -> P (setWorkflowPhase awaiting_supplier st);
  kept_fireAt : forall index st, P st -> P (fireAt index st)
}.

(** The done callback of the awaiting_supplier phase, the one that asks
    for the supplier's response. *)
Definition asksForSupplier (timer : Timer) : Prop :=
  callback timer = afterDone awaiting_supplier.

(* ================================================================== *)
(** ** The wire format and the keyword test, as relations *)


(** [keyword] occurs somewhere in [s]. *)
Definition occursIn (keyword s : JSString) : Prop :=
  exists before after, s = before ++ keyword ++ after.

(** The last message names a stage that waits for the supplier: it is a
    string in which, lower-cased, 'supplier', 'quote' or 'negotiat'
    occurs. *)
Definition namesAwaitedStage (host : Host) (message : JSValue) : Prop :=
  exists s,
    message = Some (JString s)
    /\ (occursIn (js "supplier") (toLowerCase host s)
        \/ occursIn (js "quote") (toLowerCase host s)
        \/ occursIn (js "negotiat") (toLowerCase host s)).

Module TimedExamples.

(** A continuation whose body stays open after the completion marker: the
    marker arrives in the first chunk, a further chunk follows. *)
Definition lingeringStream : list (list Z) :=
  [bytesq "data: {'message':'Analyzing'}" ++ [LF] ++ bytes "event: done"
   ++ [LF];
   bytesq "data: {'message':'Closing'}" ++ [LF]].

(** The callback of the marker fires while the second chunk is awaited. *)
Definition duringSecondRead : Waits :=
  {| duringFetch := []; duringText := []; duringReads := [[]; [0%nat]] |}.

(** A first submission whose stream stays open after the marker. *)
Definition lingeringStart : list (list Z) :=
  [bytes "event: done" ++ [LF]; bytesq "data: {'message':'Still here'}" ++ [LF]].

(** A session awaiting the supplier in which a continuation has just
    ended, its done callback still pending. *)
Definition callbackPending : State :=
  handleSendMessage refHost Examples.replyReady
    (streaming MoreExamples.continueStream) Examples.replyReady.

(** A history whose last message names none of the stages. *)
Definition plainLog : list JSON :=
  [JObject [(js "message", JString (js "Generated QUOTE for review"))];
   JObject [(js "message", JString (js "Hello again"))]].

End TimedExamples.
(* ================================================================== *)
(** ** Strings: splitting and joining *)

Lemma split_nonempty (sep : Z) (s : JSString) : split sep s <> [].
Proof.
  destruct s as [|c s]; simpl; [discriminate|].
  destruct (c =? sep); [discriminate|].
  destruct (split sep s); discriminate.
Qed.

Lemma split_app_sep (sep : Z) (a b : JSString) :
  split sep (a ++ sep :: b) = split sep a ++ split sep b.
Proof.
  induction a as [|c a IH]; simpl.
  - now rewrite Z.eqb_refl.
  - destruct (c =? sep); [now rewrite IH|].
    rewrite IH. pose proof (split_nonempty sep a) as Hne.
    destruct (split sep a); [contradiction|reflexivity].
Qed.



(** [startsWith] and [includes], said with concatenation. *)
Lemma startsWith_prefix searchString : forall s,
  startsWith s searchString = true <-> exists rest, s = searchString ++ rest.
Proof.
  induction searchString as [|p searchString IH]; intros s.
  - destruct s; (split; [intros _; eexists; reflexivity | reflexivity]).
  - destruct s as [|c s]; simpl.
    + split; [discriminate | intros [rest H]; discriminate].
    + rewrite andb_true_iff, Z.eqb_eq, IH. split.
      * intros [-> [rest ->]]. now exists rest.
      * intros [rest H]. injection H as -> ->. split; [reflexivity|].
        now exists rest.
Qed.

Lemma includes_unfold s searchString :
  includes s searchString
  = startsWith s searchString
    || match s with
       | [] => false
       | _ :: s' => includes s' searchString
       end.
Proof. now destruct s. Qed.

Lemma includes_occursIn searchString : forall s,
  includes s searchString = true <-> occursIn searchString s.
Proof.
  unfold occursIn. intros s. split.
  - induction s as [|c s IH]; rewrite includes_unfold, orb_true_iff;
      (intros [H|H]; [apply startsWith_prefix in H as [rest ->];
                      now exists [], rest |]).
    + discriminate.
    + destruct (IH H) as (before & after & ->).
      now exists (c :: before), after.
  - intros (before & after & ->).
    induction before as [|c before IH]; rewrite includes_unfold.
    + assert (startsWith ([] ++ searchString ++ after) searchString = true)
        as -> by (apply startsWith_prefix; now exists after).
      reflexivity.
    + cbn [app]. rewrite IH. apply orb_true_r.
Qed.

Lemma js_data_prefix : js "data: " = 100 :: js "ata: ".
Proof. reflexivity. Qed.

Lemma js_done_prefix : js "event: done" = 101 :: js "vent: done".
Proof. reflexivity. Qed.

(* ================================================================== *)
(** ** The text decoder *)

Module DecoderFacts.
Import TextDecoder.

Lemma wf_new : wf new.
Proof. unfold wf; simpl; lia. Qed.

Lemma lead_wf d byte : wf (fst (lead d byte)).
Proof.
  unfold lead, wf.
  repeat match goal with
         | |- context [if ?b then _ else _] => destruct b; simpl
         end; lia.
Qed.

Lemma handler_wf d byte : wf (fst (handler d byte)).
Proof.
  unfold handler.
  destruct (bytesNeeded d =? 0); [apply lead_wf|].
  destruct ((byte <? lowerBoundary d) || (upperBoundary d <? byte)).
  - pose proof (lead_wf (reset d) byte) as H.
    destruct (lead (reset d) byte); exact H.
  - destruct (bytesSeen d + 1 =? bytesNeeded d); unfold wf; simpl; lia.
Qed.

Lemma step_wf d byte : wf (fst (step d byte)).
Proof.
  unfold step. pose proof (handler_wf d byte) as H.
  destruct (handler d byte) as [d1 cps].
  destruct (serialize (BOMseen d1) cps). exact H.
Qed.

Lemma decode_wf value : forall d, wf d -> wf (fst (decode d value)).
Proof.
  induction value as [|byte value IH]; intros d Hd; simpl; [exact Hd|].
  pose proof (step_wf d byte) as H1.
  destruct (step d byte) as [d1 out1]. specialize (IH d1 H1).
  destruct (decode d1 value). exact IH.
Qed.

(** Decoding is a left fold over the bytes: the text of two chunks read in
    turn is the text of their concatenation, wherever the cut falls. *)
Lemma decode_app a : forall d b,
  decode d (a ++ b) =
  (fst (decode (fst (decode d a)) b),
   snd (decode d a) ++ snd (decode (fst (decode d a)) b)).
Proof.
  induction a as [|byte a IH]; intros d b; simpl.
  - now destruct (decode d b).
  - destruct (step d byte) as [d1 out1]. rewrite IH.
    destruct (decode d1 a) as [d2 out2]; simpl.
    now rewrite app_assoc.
Qed.

(** A line-feed byte always comes out as a line feed, at the end of what
    the step emits. *)
Lemma lead_LF d : lead d LF = (reset d, [LF]).
Proof. reflexivity. Qed.

Lemma step_LF d : wf d -> exists out, snd (step d LF) = out ++ [LF].
Proof.
  unfold wf, step, handler. intros Hd.
  destruct (bytesNeeded d =? 0).
  - rewrite lead_LF. exists []. unfold LF. simpl.
    now destruct (BOMseen d).
  - replace ((LF <? lowerBoundary d) || (upperBoundary d <? LF)) with true
      by (symmetry; apply orb_true_iff; left; apply Z.ltb_lt; unfold LF; lia).
    rewrite lead_LF. exists [65533]. unfold LF. simpl.
    now destruct (BOMseen d).
Qed.

Lemma decode_endsWithLF d chunk :
  wf d -> endsWithLF chunk ->
  exists out, snd (decode d chunk) = out ++ [LF].
Proof.
  intros Hd [a ->]. rewrite decode_app. simpl snd.
  destruct (step_LF (fst (decode d a))) as [out Hout];
    [now apply decode_wf|].
  exists (snd (decode d a) ++ out).
  simpl. destruct (step (fst (decode d a)) LF) as [d1 o1]; simpl in *.
  subst o1. now rewrite app_nil_r, app_assoc.
Qed.

End DecoderFacts.

(* ================================================================== *)
(** ** The stream reader *)

Section StreamFacts.

Variable host : Host.

Lemma decodeLine_empty : decodeLine host [] = None.
Proof. reflexivity. Qed.

Lemma decodeLines_app (a b : list JSString) :
  decodeLines host (a ++ b) = decodeLines host a ++ decodeLines host b.
Proof. unfold decodeLines. apply flat_map_app. Qed.


(** A line feed inside a decoded chunk separates the events on its two
    sides. *)
Lemma decodeChunk_cut (a b : JSString) :
  decodeChunk host (a ++ LF :: b) = decodeChunk host a ++ decodeChunk host b.
Proof. unfold decodeChunk. now rewrite split_app_sep, decodeLines_app. Qed.

Lemma decodeChunk_nil : decodeChunk host [] = [].
Proof. reflexivity. Qed.

(** The loop body handles exactly the events of the lines. *)
Lemma processLines_events render isNew (lines : list JSString) : forall st,
  fold_left (processLine host render isNew) lines st =
  fold_left (fun st event => onEvent host render isNew event st)
            (decodeLines host lines) st.
Proof.
  induction lines as [|line lines IH]; intros st; [reflexivity|].
  unfold decodeLines. simpl. fold (decodeLines host lines).
  rewrite fold_left_app, <- IH. unfold processLine.
  now destruct (decodeLine host line).
Qed.

(** The read loop is the fold of [onEvent] over [wireEvents]. *)
Lemma readLoop_events render isNew failure pending : forall decoder st,
  readLoop host render isNew decoder pending failure st =
  finish failure
    (fold_left (fun st event => onEvent host render isNew event st)
               (wireEvents host decoder pending) st).
Proof.
  induction pending as [|value pending IH]; intros decoder st; simpl.
  - now destruct failure.
  - destruct (TextDecoder.decode decoder value) as [decoder' chunk].
    rewrite IH, fold_left_app. unfold decodeChunk.
    now rewrite processLines_events.
Qed.


(** When every boundary falls right after a line feed, the chunks yield the
    events of their concatenation read as one chunk. *)
Lemma wireEvents_aligned pending : forall decoder,
  TextDecoder.wf decoder -> lineAligned pending ->
  wireEvents host decoder pending =
  decodeChunk host (snd (TextDecoder.decode decoder (concat pending))).
Proof.
  induction pending as [|value pending IH]; intros decoder Hwf Hal.
  - reflexivity.
  - destruct pending as [|value' pending].
    + simpl. rewrite app_nil_r.
      destruct (TextDecoder.decode decoder value). now rewrite app_nil_r.
    + unfold lineAligned in Hal.
      change (removelast (value :: value' :: pending))
        with (value :: removelast (value' :: pending)) in Hal.
      inversion Hal as [|? ? Hend Hrest]; subst.
      change (concat (value :: value' :: pending))
        with (value ++ concat (value' :: pending)).
      rewrite DecoderFacts.decode_app. simpl snd.
      destruct (DecoderFacts.decode_endsWithLF decoder value Hwf Hend)
        as [out Hout].
      pose proof (DecoderFacts.decode_wf value decoder Hwf) as Hwf'.
      change (wireEvents host decoder (value :: value' :: pending))
        with (let (decoder', chunk) := TextDecoder.decode decoder value in
              decodeChunk host chunk
              ++ wireEvents host decoder' (value' :: pending)).
      destruct (TextDecoder.decode decoder value) as [decoder' chunk].
      cbn [fst snd] in Hout, Hwf' |- *. subst chunk.
      rewrite (IH decoder' Hwf' Hrest).
      rewrite <- app_assoc. cbn [app].
      rewrite !decodeChunk_cut, decodeChunk_nil, app_nil_r. reflexivity.
Qed.

(** C1, as amended.  For every byte sequence and every two ways of cutting
    it into chunks in which each boundary falls right after a line-feed
    byte, the reader handles the identical ordered sequence of events, and
    so ends in the identical state.  (The decoder is streaming, so a
    multi-byte character may straddle two chunks; a line may not: there is no
    buffer that carries an unfinished line to the next chunk.) *)
Theorem chunk_invariance_at_line_boundaries
  (pending1 pending2 : list (list Z)) :
  lineAligned pending1 -> lineAligned pending2 ->
  concat pending1 = concat pending2 ->
  wireEvents host TextDecoder.new pending1
  = wireEvents host TextDecoder.new pending2
  /\ forall render isNew failure st,
       readLoop host render isNew TextDecoder.new pending1 failure st
       = readLoop host render isNew TextDecoder.new pending2 failure st.
Proof.
  intros H1 H2 Heq.
  assert (wireEvents host TextDecoder.new pending1
          = wireEvents host TextDecoder.new pending2) as Hev.
  { rewrite !wireEvents_aligned by (assumption || apply DecoderFacts.wf_new).
    now rewrite Heq. }
  split; [exact Hev|].
  intros. now rewrite !readLoop_events, Hev.
Qed.

(** C7, as amended.  A line is handled as the completion marker exactly
    when, once trimmed, it starts with 'event: done'; what follows that
    prefix on the line is not looked at. *)
Theorem done_marker_is_a_prefix_test (line : JSString) :
  decodeLine host line = Some doneSignal
  <-> startsWith (trim line) (js "event: done") = true.
Proof.
  unfold decodeLine.
  destruct (trim line) as [|c t] eqn:Ht;
    [rewrite js_done_prefix; split; discriminate|].
  destruct (startsWith (c :: t) (js "data: ")) eqn:Hdata.
  - rewrite js_data_prefix in Hdata. rewrite js_done_prefix.
    simpl in Hdata |- *. apply andb_true_iff in Hdata as [Hc _].
    apply Z.eqb_eq in Hc. subst c. simpl.
    match goal with
    | |- context [JSON_parse host ?rest] => destruct (JSON_parse host rest)
    end; split; discriminate.
  - destruct (startsWith (c :: t) (js "event: done"));
      split; (reflexivity || discriminate).
Qed.





End StreamFacts.

(** C1: a counterexample.  The same bytes, cut in the middle of a line,
    yield no event where the whole line yields one. *)
Lemma cut_line_loses_the_event :
  concat Examples.wholeLine = concat Examples.cutLine
  /\ wireEvents refHost TextDecoder.new Examples.wholeLine
     = [data (JObject [(js "message", JString (js "hi"))])]
  /\ wireEvents refHost TextDecoder.new Examples.cutLine = []
  /\ wireEvents refHost TextDecoder.new Examples.wholeLine
     <> wireEvents refHost TextDecoder.new Examples.cutLine.
Proof.
  repeat split; try reflexivity.
  vm_compute. discriminate.
Qed.

(** Delivered one byte at a time, the same line yields no event either. *)
Example one_byte_at_a_time_yields_nothing :
  wireEvents refHost TextDecoder.new
    (map (fun byte => [byte]) (concat Examples.wholeLine)) = [].
Proof. reflexivity. Qed.

(** Two chunkings of one stream, both cut right after a line feed. *)
Lemma chunk_invariance_witness :
  wireEvents refHost TextDecoder.new
    [bytes "event: done" ++ [LF]; bytesq "data: {'step':'x'}"]
  = wireEvents refHost TextDecoder.new
      [bytes "event: done" ++ [LF] ++ bytesq "data: {'step':'x'}"].
Proof.
  apply (chunk_invariance_at_line_boundaries refHost
           [bytes "event: done" ++ [LF]; bytesq "data: {'step':'x'}"]
           [bytes "event: done" ++ [LF] ++ bytesq "data: {'step':'x'}"]).
  - repeat constructor. now exists (bytes "event: done").
  - constructor.
  - reflexivity.
Defined.

(** C7: a counterexample.  A line that is not the literal 'event: done' is
    handled as the completion marker. *)
Lemma done_marker_with_a_tail :
  trim Examples.doneAndMore <> js "event: done"
  /\ decodeLine refHost Examples.doneAndMore = Some doneSignal.
Proof. split; [vm_compute; discriminate | reflexivity]. Qed.


(* ================================================================== *)
(** ** What the handlers write *)

(** Case analysis on every test a handler makes. *)
Ltac tests :=
  repeat match goal with
         | |- context [if ?b then _ else _] => destruct b
         end.

Section HandlerFacts.

Variable host : Host.

(** [onData] writes the messages, the session info and the app context,
    and nothing else of the component. *)
Lemma onData_frame isNew payload st :
  actionMode (onData host isNew payload st) = actionMode st
  /\ workflowPhase (onData host isNew payload st) = workflowPhase st
  /\ timers (onData host isNew payload st) = timers st
  /\ requests (onData host isNew payload st) = requests st
  /\ isLoading (onData host isNew payload st) = isLoading st.
Proof.
  unfold onData.
  destruct payload; try (repeat split; reflexivity);
    tests; repeat split; reflexivity.
Qed.

Lemma onData_sessionInfo isNew payload st :
  sessionInfo (onData host isNew payload st) =
  if carriesSessionId (data payload) && isNew
  then sessionInfoOf payload else sessionInfo st.
Proof.
  unfold onData, carriesSessionId.
  destruct payload; try reflexivity.
  destruct (truthy (prop (JObject members) (js "message")));
    destruct (truthy (prop (JObject members) (js "session_id")) && isNew);
    reflexivity.
Qed.

Lemma onEvent_frame render isNew event st :
  actionMode (onEvent host render isNew event st) = actionMode st
  /\ workflowPhase (onEvent host render isNew event st) = workflowPhase st
  /\ requests (onEvent host render isNew event st) = requests st
  /\ isLoading (onEvent host render isNew event st) = isLoading st.
Proof.
  destruct event as [payload|]; simpl.
  - destruct (onData_frame isNew payload st) as (? & ? & ? & ? & ?).
    repeat split; assumption.
  - repeat split; reflexivity.
Qed.

Lemma events_frame render isNew events : forall st,
  let st' := fold_left (fun st event => onEvent host render isNew event st)
                       events st in
  actionMode st' = actionMode st
  /\ workflowPhase st' = workflowPhase st
  /\ requests st' = requests st
  /\ isLoading st' = isLoading st.
Proof.
  induction events as [|event events IH]; intros st; simpl.
  - repeat split; reflexivity.
  - destruct (IH (onEvent host render isNew event st)) as (-> & -> & -> & ->).
    apply onEvent_frame.
Qed.

(** Without the session latch of a new workflow, the stream leaves the
    session info and the length of earlier messages alone. *)
Lemma events_sessionInfo_continue render events : forall st,
  sessionInfo (fold_left (fun st event => onEvent host render false event st)
                         events st) = sessionInfo st.
Proof.
  induction events as [|event events IH]; intros st; simpl; [reflexivity|].
  rewrite IH. destruct event as [payload|]; simpl; [|reflexivity].
  rewrite onData_sessionInfo. now rewrite andb_false_r.
Qed.

Lemma events_sessionInfo_unchanged render isNew events : forall st,
  Forall (fun event => carriesSessionId event = false) events ->
  sessionInfo (fold_left (fun st event => onEvent host render isNew event st)
                         events st) = sessionInfo st.
Proof.
  induction events as [|event events IH]; intros st Hall; simpl;
    [reflexivity|].
  inversion Hall as [|? ? Hev Hrest]; subst.
  rewrite IH by assumption.
  destruct event as [payload|]; simpl; [|reflexivity].
  rewrite onData_sessionInfo, Hev. reflexivity.
Qed.

(** Every timer the stream schedules carries the phase of the render. *)
Lemma events_timers render isNew events : forall st,
  exists added,
    timers (fold_left (fun st event => onEvent host render isNew event st)
                      events st) = timers st ++ added
    /\ Forall (fun timer => callback timer = afterDone (workflowPhase render))
              added.
Proof.
  induction events as [|event events IH]; intros st; simpl.
  - exists []. now rewrite app_nil_r.
  - destruct (IH (onEvent host render isNew event st)) as (added & -> & Hadded).
    destruct event as [payload|]; simpl.
    + destruct (onData_frame isNew payload st) as (_ & _ & -> & _).
      now exists added.
    + exists ({| callback := afterDone (workflowPhase render); delay := 1000 |}
               :: added).
      rewrite <- app_assoc. split; [reflexivity|]. now constructor.
Qed.

Lemma finalState_finish failure st : finalState (finish failure st) = st.
Proof. now destruct failure. Qed.

(** What the [catch] block of an operation writes. *)
Lemma recover_frame failed toastMessage result :
  let st := finalState result in
  let st' := recover host failed toastMessage result in
  actionMode st' = actionMode st
  /\ workflowPhase st' = workflowPhase st
  /\ sessionInfo st' = sessionInfo st
  /\ timers st' = timers st
  /\ requests st' = requests st
  /\ isLoading st' = isLoading st.
Proof. destruct result; repeat split; reflexivity. Qed.

(** What the [try] block of an operation leaves, however it ends. *)
Lemma consume_frame render fetched isNew st :
  let st' := finalState (consume host render fetched isNew (fun st => st) st) in
  actionMode st' = actionMode st
  /\ workflowPhase st' = workflowPhase st
  /\ requests st' = requests st
  /\ isLoading st' = isLoading st.
Proof.
  unfold consume.
  destruct fetched as [response|message]; [|repeat split; reflexivity].
  destruct (negb (ok response)).
  - destruct (responseText response); repeat split; reflexivity.
  - unfold processStreamingResponse.
    rewrite readLoop_events, finalState_finish.
    destruct (events_frame render isNew
                (wireEvents host TextDecoder.new (chunks (body response))) st)
      as (? & ? & ? & ?).
    repeat split; assumption.
Qed.

Lemma consume_replay_frame render fetched st :
  let st' := finalState (consume host render fetched false
                           (setWorkflowPhase awaiting_supplier) st) in
  actionMode st' = actionMode st
  /\ requests st' = requests st
  /\ (forall response, fetched = resolved response -> ok response = true ->
      workflowPhase st' = awaiting_supplier)
  /\ isLoading st' = isLoading st.
Proof.
  unfold consume.
  destruct fetched as [response|message].
  - destruct (ok response) eqn:Hok; simpl negb; cbv iota.
    + unfold processStreamingResponse.
      rewrite readLoop_events, finalState_finish.
      destruct (events_frame render false
                  (wireEvents host TextDecoder.new (chunks (body response)))
                  (setWorkflowPhase awaiting_supplier st))
        as (-> & -> & -> & ->).
      repeat split; reflexivity.
    + destruct (responseText response); repeat split;
        try reflexivity; intros r Hr; inversion Hr; subst; congruence.
  - repeat split; try reflexivity. discriminate.
Qed.

(** The timers an operation schedules all carry the phase of the render
    that runs it. *)
Lemma consume_timers render fetched isNew before st :
  (forall st, timers (before st) = timers st) ->
  exists added,
    timers (finalState (consume host render fetched isNew before st))
    = timers st ++ added
    /\ Forall (fun timer => callback timer = afterDone (workflowPhase render))
              added.
Proof.
  intros Hbefore. unfold consume.
  destruct fetched as [response|message];
    [|exists []; simpl; now rewrite app_nil_r].
  destruct (negb (ok response)).
  - destruct (responseText response); exists []; simpl; now rewrite app_nil_r.
  - unfold processStreamingResponse.
    rewrite readLoop_events, finalState_finish.
    destruct (events_timers render isNew
                (wireEvents host TextDecoder.new (chunks (body response)))
                (before st)) as (added & -> & Hadded).
    rewrite Hbefore. now exists added.
Qed.

End HandlerFacts.

(* ================================================================== *)
(** ** The submit handler and the three operations *)

Section OperationFacts.

Variable host : Host.

(** C9.  While the render the handler belongs to is loading, or when its
    input is empty or only white space, submitting changes nothing at all:
    no request is recorded, no message appended, and session info, action
    mode and phase are what they were. *)
Theorem submission_refused_while_loading_or_blank
  (render : State) (fetched : Promise Response) (st : State) :
  isLoading render = true \/ trim (inputMessage render) = [] ->
  handleSendMessage host render fetched st = st.
Proof.
  intros H. unfold handleSendMessage, refuses.
  destruct H as [H|H]; rewrite H; [|reflexivity].
  now destruct (trim (inputMessage render)).
Qed.

(** C5.  A Continue call whose request is rejected, or answered with a
    status that is not ok, appends exactly one message, of role system and
    type error, to the messages it found; session info, phase and action
    mode are unchanged, and the one request it made is the only one
    recorded. *)
Theorem continue_failure_appends_one_error_entry
  (render : State) (sessionId : JSValue) (supplierResponse : JSString)
  (fetched : Promise Response) (st : State) :
  transportFailure fetched ->
  let st' := continueWorkflow host render sessionId supplierResponse
                              fetched st in
  (exists entry,
      messages st' = messages st ++ [entry]
      /\ Message.role entry = system
      /\ Message.type entry = js "error")
  /\ sessionInfo st' = sessionInfo st
  /\ workflowPhase st' = workflowPhase st
  /\ actionMode st' = actionMode st
  /\ requests st' =
     requests st ++ [apiService.continueWorkflow sessionId supplierResponse].
Proof.
  intros Hfail. unfold continueWorkflow, consume.
  destruct fetched as [response|message]; simpl in Hfail.
  - rewrite Hfail. simpl negb. cbv iota.
    destruct (responseText response);
      (split; [eexists; repeat split; reflexivity | repeat split; reflexivity]).
  - split; [eexists; repeat split; reflexivity | repeat split; reflexivity].
Qed.

Lemma beginSend_frame render st :
  actionMode (beginSend host render st) = actionMode st
  /\ workflowPhase (beginSend host render st) = workflowPhase st
  /\ timers (beginSend host render st) = timers st.
Proof. repeat split; reflexivity. Qed.

Lemma operations_keep_actionMode render input sessionId fetched st :
  actionMode (startNewWorkflow host render input fetched st) = actionMode st
  /\ actionMode (continueWorkflow host render sessionId input fetched st)
     = actionMode st
  /\ actionMode (replayWorkflow host render input fetched st) = actionMode st.
Proof.
  unfold startNewWorkflow, continueWorkflow, replayWorkflow.
  repeat split;
    match goal with
    | |- actionMode (recover _ ?f ?t ?r) = _ =>
        destruct (recover_frame host f t r) as (-> & _)
    end.
  - now destruct (consume_frame host render fetched true
                    (request (apiService.startWorkflow input (js "quote")) st))
      as (-> & _).
  - now destruct (consume_frame host render fetched false
                    (request (apiService.continueWorkflow sessionId input) st))
      as (-> & _).
  - now destruct (consume_replay_frame host render fetched
                    (request (apiService.replayWorkflow
                                (SessionInfo.id (sessionInfo render)) input)
                             st))
      as (-> & _).
Qed.

Lemma dispatch_keeps_actionMode render fetched st :
  actionMode (dispatch host render fetched st) = actionMode st.
Proof.
  unfold dispatch.
  destruct (operations_keep_actionMode render (inputMessage render)
              (SessionInfo.id (sessionInfo render)) fetched st)
    as (H1 & H2 & H3).
  tests; assumption.
Qed.

(** From the moment a submission is accepted until its operation has ended
    the store is loading, so a further submission made then is refused. *)
Lemma loading_while_in_flight render fetched st :
  isLoading (dispatch host render fetched (beginSend host render st)) = true.
Proof.
  unfold dispatch, startNewWorkflow, continueWorkflow, replayWorkflow.
  tests;
    match goal with
    | |- isLoading (recover _ ?f ?t ?r) = _ =>
        destruct (recover_frame host f t r) as (_ & _ & _ & _ & _ & ->)
    end;
    match goal with
    | |- isLoading (finalState (consume _ _ _ ?isNew (fun st => st) ?s)) = _ =>
        now destruct (consume_frame host render fetched isNew s)
          as (_ & _ & _ & ->)
    | |- isLoading (finalState (consume _ _ _ _ _ ?s)) = _ =>
        now destruct (consume_replay_frame host render fetched s)
          as (_ & _ & _ & ->)
    end.
Qed.

(** C2, as amended.  During a Start call every data event that carries a
    session id writes the session info anew: after the call the session
    info is the one of the last such event of the stream, not of the
    first. *)
Theorem session_info_follows_the_last_session_id
  (render : State) (userInput : JSString) (response : Response) (st : State)
  (earlier later : list WireEvent) (payload : JSON) :
  ok response = true ->
  wireEvents host TextDecoder.new (chunks (body response))
  = earlier ++ data payload :: later ->
  truthy (prop payload (js "session_id")) = true ->
  Forall (fun event => carriesSessionId event = false) later ->
  sessionInfo (startNewWorkflow host render userInput (resolved response) st)
  = sessionInfoOf payload.
Proof.
  intros Hok Hevents Hid Hlater. unfold startNewWorkflow.
  match goal with
  | |- sessionInfo (recover _ ?f ?t ?r) = _ =>
      destruct (recover_frame host f t r) as (_ & _ & -> & _)
  end.
  unfold consume. rewrite Hok. simpl negb. cbv iota.
  unfold processStreamingResponse.
  rewrite readLoop_events, finalState_finish, Hevents, fold_left_app.
  simpl fold_left.
  rewrite events_sessionInfo_unchanged by assumption.
  rewrite onData_sessionInfo. simpl. now rewrite Hid.
Qed.

Lemma fire_frame timer st :
  callback timer <> afterDone awaiting_supplier ->
  actionMode (fire timer st) = actionMode st
  /\ workflowPhase (fire timer st) = workflowPhase st.
Proof.
  unfold fire. destruct (callback timer) as [|phase]; [now split|].
  destruct phase; [now split | congruence].
Qed.

Lemma fire_fold_frame pending : forall st,
  Forall (fun timer => callback timer <> afterDone awaiting_supplier) pending ->
  actionMode (fold_left (fun st timer => fire timer st) pending st)
  = actionMode st
  /\ workflowPhase (fold_left (fun st timer => fire timer st) pending st)
     = workflowPhase st.
Proof.
  induction pending as [|timer pending IH]; intros st Hall; simpl;
    [now split|].
  inversion Hall as [|? ? Ht Hrest]; subst.
  destruct (IH (fire timer st) Hrest) as (-> & ->).
  now apply fire_frame.
Qed.

(** C4: what the code does.  A replay submitted from the initial phase sets
    the phase to awaiting_supplier whatever the stream holds, but the
    callback the done line schedules reads the phase of the render that
    submitted, which is still initial: once every timer has fired the
    action mode is none, not supplier_response. *)
Theorem replay_done_callback_reads_the_phase_of_its_render
  (render : State) (response : Response) (st : State) :
  actionMode render = Some replay ->
  workflowPhase render = initial ->
  refuses render = false ->
  ok response = true ->
  Forall (fun timer => callback timer <> afterDone awaiting_supplier)
         (timers st) ->
  let after := fireAll (handleSendMessage host render (resolved response) st) in
  workflowPhase after = awaiting_supplier /\ actionMode after = None.
Proof.
  intros Hmode Hphase Hgo Hok Htimers.
  unfold handleSendMessage. rewrite Hgo.
  unfold dispatch. rewrite Hmode. simpl isMode. cbv iota.
  unfold replayWorkflow.
  set (st0 := request _ (beginSend host render st)).
  set (result := consume host render (resolved response) false
                         (setWorkflowPhase awaiting_supplier) st0).
  destruct (recover_frame host (js "Failed to replay workflow: ")
              (js "Failed to replay workflow") result)
    as (_ & Hp & _ & Ht & _).
  destruct (consume_replay_frame host render (resolved response) st0)
    as (_ & _ & Hforced & _).
  destruct (consume_timers host render (resolved response) false
              (setWorkflowPhase awaiting_supplier) st0 (fun _ => eq_refl))
    as (added & Hadded & Hcallbacks).
  fold result in Hforced, Hadded.
  set (st1 := recover host _ _ result) in *.
  unfold fireAll. simpl timers.
  match goal with
  | |- context [fold_left ?f ?l ?s] =>
      destruct (fire_fold_frame l s) as (Hm' & Hp')
  end.
  - rewrite Ht, Hadded. apply Forall_app. split.
    + exact Htimers.
    + eapply Forall_impl; [|exact Hcallbacks].
      intros timer ->. rewrite Hphase. discriminate.
  - simpl in Hm', Hp' |- *. rewrite Hm', Hp', Hp.
    split; [now apply (Hforced response) | reflexivity].
Qed.

End OperationFacts.

(* ================================================================== *)
(** ** The properties at concrete sessions *)

(** The happy path of a first submission: two messages after the user's,
    the session info of the second event, phase initial, action mode
    none. *)
Example start_happy_path :
  map Message.role (messages Examples.established)
  = [assistant; user; assistant; assistant]
  /\ sessionInfo Examples.established
     = SessionInfo.mk (str (js "abc123")) (str (js "active"))
                      (str (js "quote_request")) (Some (JNumber 92 (-2)))
  /\ workflowPhase Examples.established = initial
  /\ actionMode Examples.established = None.
Proof. repeat split; reflexivity. Qed.

(** A submission made while the component is loading. *)
Lemma refused_witness :
  handleSendMessage refHost (setIsLoading true Examples.firstSubmission)
                    (streaming Examples.startStream) Examples.firstSubmission
  = Examples.firstSubmission.
Proof.
  apply (submission_refused_while_loading_or_blank refHost).
  left. reflexivity.
Defined.

(** A reply to the supplier whose request is rejected by the network. *)
Lemma continue_failure_witness :
  let st := Examples.replyReady in
  let st' := continueWorkflow refHost st (SessionInfo.id (sessionInfo st))
                              (inputMessage st)
                              (rejected (js "Failed to fetch")) st in
  (exists entry,
      messages st' = messages st ++ [entry]
      /\ Message.role entry = system
      /\ Message.type entry = js "error")
  /\ sessionInfo st' = sessionInfo st
  /\ workflowPhase st' = workflowPhase st
  /\ actionMode st' = actionMode st
  /\ requests st' =
     requests st
     ++ [apiService.continueWorkflow (SessionInfo.id (sessionInfo st))
                                     (inputMessage st)].
Proof.
  exact (continue_failure_appends_one_error_entry refHost
           Examples.replyReady
           (SessionInfo.id (sessionInfo Examples.replyReady))
           (inputMessage Examples.replyReady)
           (rejected (js "Failed to fetch")) Examples.replyReady I).
Defined.

(** C2: a counterexample.  Two events carry a session id; the id of the
    session after the Start call is the second one. *)
Lemma second_session_id_overwrites_the_first :
  let st := submit refHost (streaming Examples.twoIds)
                   Examples.firstSubmission in
  SessionInfo.id (sessionInfo st) = str (js "second")
  /\ SessionInfo.id (sessionInfo st) <> str (js "first").
Proof. split; [reflexivity | vm_compute; discriminate]. Qed.

(** The stream with two session ids, event by event. *)
Lemma last_session_id_witness :
  sessionInfo
    (startNewWorkflow refHost Examples.firstSubmission
       (inputMessage Examples.firstSubmission)
       (resolved (okResponse Examples.twoIds)) Examples.firstSubmission)
  = sessionInfoOf
      (JObject [(js "session_id", JString (js "second"));
                (js "status", JString (js "active"))]).
Proof.
  apply (session_info_follows_the_last_session_id refHost
           Examples.firstSubmission (inputMessage Examples.firstSubmission)
           (okResponse Examples.twoIds) Examples.firstSubmission
           [data (JObject [(js "session_id", JString (js "first"));
                           (js "status", JString (js "active"))])]
           [doneSignal]).
  - reflexivity.
  - reflexivity.
  - reflexivity.
  - repeat constructor.
Defined.

(** The replay of the established session. *)
Lemma replay_stale_phase_witness :
  let after :=
    fireAll (handleSendMessage refHost Examples.replayReady
               (resolved (okResponse Examples.replayStream))
               Examples.replayReady) in
  workflowPhase after = awaiting_supplier /\ actionMode after = None.
Proof.
  apply (replay_done_callback_reads_the_phase_of_its_render refHost
           Examples.replayReady (okResponse Examples.replayStream)
           Examples.replayReady).
  - reflexivity.
  - reflexivity.
  - reflexivity.
  - reflexivity.
  - vm_compute. constructor.
Defined.

(** The replay scenario, evaluated: the done callback carries the initial
    phase, and firing it offers the post actions instead of the supplier
    response mode. *)
Example replay_scenario_evaluated :
  let sent := submit refHost (streaming Examples.replayStream)
                     Examples.replayReady in
  map callback (timers sent) = [afterDone initial]
  /\ workflowPhase sent = awaiting_supplier
  /\ actionMode (fireAll sent) = None
  /\ showPostActions (fireAll sent) = true.
Proof. repeat split; reflexivity. Qed.

(* ================================================================== *)
(** ** Resuming a session *)

Section HistoryFacts.

Variable host : Host.

Lemma mapHistory_records len log : forall index readings,
  Forall (fun record => record <> JNull) log ->
  mapHistory host len index log readings
  = ((readings + length log)%nat, Some (hydrated host len index log readings)).
Proof.
  induction log as [|msg log IH]; intros index readings Hall; simpl.
  - now rewrite Nat.add_0_r.
  - inversion Hall as [|? ? Hmsg Hrest]; subst.
    rewrite (IH (S index) (S readings) Hrest).
    rewrite Nat.add_succ_r.
    destruct msg; (congruence || reflexivity).
Qed.

Lemma hydrated_length len log : forall index readings,
  length (hydrated host len index log readings) = length log.
Proof.
  induction log as [|msg log IH]; intros; simpl; [reflexivity|].
  now rewrite IH.
Qed.

Lemma hydrated_content len log : forall index readings,
  map Message.content (hydrated host len index log readings)
  = map (fun record => prop record (js "message")) log.
Proof.
  induction log as [|msg log IH]; intros; simpl; [reflexivity|].
  now rewrite IH.
Qed.

(** The i-th hydrated message, record by record. *)
Lemma hydrated_nth len log : forall index readings i m,
  nth_error (hydrated host len index log readings) i = Some m ->
  exists record,
    nth_error log i = Some record
    /\ m = Message.mk (id_history (index + i)) assistant
                      (prop record (js "message"))
                      (Date_now host (readings + i)
                       - (Z.of_nat len - Z.of_nat (index + i)) * 60000)
                      (prop record (js "step")) (js "response").
Proof.
  induction log as [|msg log IH]; intros index readings i m Hnth.
  - destruct i; discriminate.
  - destruct i as [|i]; simpl in Hnth.
    + inversion Hnth; subst. exists msg. rewrite !Nat.add_0_r. now split.
    + destruct (IH _ _ _ _ Hnth) as (record & Hrec & ->).
      exists record. split; [exact Hrec|].
      now rewrite !Nat.add_succ_r.
Qed.

Lemma hydrated_app len a b : forall index readings,
  hydrated host len index (a ++ b) readings
  = hydrated host len index a readings
    ++ hydrated host len (index + length a) b (readings + length a).
Proof.
  induction a as [|msg a IH]; intros; simpl.
  - now rewrite !Nat.add_0_r.
  - now rewrite IH, !Nat.add_succ_r.
Qed.

Lemma last_some {A} (l : list A) (x : A) :
  last (map (fun m => Some m) (l ++ [x])) None = Some x.
Proof.
  induction l as [|y l IH]; [reflexivity|].
  simpl. rewrite IH. destruct (l ++ [x]) eqn:E; [|reflexivity].
  now destruct l.
Qed.

(** What the rest of [loadSessionHistory] leaves of a hydration. *)
Lemma loadSessionHistory_hydrates sessionId log sessionState st :
  log <> [] ->
  Forall (fun record => record <> JNull) log ->
  let st' := loadSessionHistory host sessionId
               (resolved {| messages_log := Some log |}) sessionState st in
  messages st' = messages st ++ hydrated host (length log) 0 log (clock st)
  /\ forall older lastRecord, log = older ++ [lastRecord] ->
       workflowPhase st' =
       if namesSupplierStage host lastRecord then awaiting_supplier
       else workflowPhase st.
Proof.
  intros Hne Hall. unfold loadSessionHistory. simpl messages_log.
  destruct log as [|msg log]; [congruence|]. clear Hne.
  unfold hydrate. simpl clock.
  rewrite (mapHistory_records (length (msg :: log)) (msg :: log) 0 (clock st)
             Hall).
  set (ms := hydrated host (length (msg :: log)) 0 (msg :: log) (clock st)).
  split.
  - destruct (last (map (fun m => Some m) ms) None) as [lastMessage|];
      [destruct (mentionsSupplier host (Message.content lastMessage))
         as [[|]|]|];
      simpl; destruct sessionState as [[]|]; reflexivity.
  - intros older lastRecord Hlog. unfold ms. rewrite Hlog, hydrated_app.
    simpl hydrated at 2. rewrite last_some. simpl Message.content.
    unfold namesSupplierStage.
    destruct (mentionsSupplier host (prop lastRecord (js "message")))
      as [[|]|];
      simpl; destruct sessionState as [[]|]; reflexivity.
Qed.

(** C8.  Hydrating a non-empty history appends one message per record, in
    order, each of role assistant and type response with the record's
    message and step; each timestamp is strictly earlier than the clock
    reading it was computed from, hence than every later reading, and the
    timestamps strictly increase along the list. *)
Theorem hydration_timestamps
  (sessionId : JSString) (log : list JSON) (sessionState : Promise JSON)
  (st : State) :
  monotone host ->
  log <> [] ->
  Forall (fun record => record <> JNull) log ->
  exists historyMessages,
    messages (loadSessionHistory host sessionId
                (resolved {| messages_log := Some log |}) sessionState st)
    = messages st ++ historyMessages
    /\ length historyMessages = length log
    /\ map Message.content historyMessages
       = map (fun record => prop record (js "message")) log
    /\ Forall (fun m => Message.role m = assistant
                        /\ Message.type m = js "response") historyMessages
    /\ (forall i m now,
          nth_error historyMessages i = Some m ->
          (clock st + i <= now)%nat ->
          Message.timestamp m < Date_now host now)
    /\ (forall i j mi mj,
          nth_error historyMessages i = Some mi ->
          nth_error historyMessages j = Some mj ->
          (i < j)%nat ->
          Message.timestamp mi < Message.timestamp mj).
Proof.
  intros Hclock Hne Hall.
  destruct (loadSessionHistory_hydrates sessionId log sessionState st Hne Hall)
    as (Hmessages & _).
  exists (hydrated host (length log) 0 log (clock st)).
  split; [exact Hmessages|]. split; [apply hydrated_length|].
  split; [|split; [|split]].
  - apply hydrated_content.
  - apply Forall_forall. intros m Hin.
    apply In_nth_error in Hin as [i Hi].
    destruct (hydrated_nth _ _ _ _ _ _ Hi) as (record & _ & ->). now split.
  - intros i m now Hi Hnow.
    destruct (hydrated_nth _ _ _ _ _ _ Hi) as (record & Hrec & ->).
    simpl. assert (i < length log)%nat as Hlt
        by (apply nth_error_Some; congruence).
    specialize (Hclock (clock st + i)%nat now Hnow). lia.
  - intros i j mi mj Hi Hj Hij.
    destruct (hydrated_nth _ _ _ _ _ _ Hi) as (ri & _ & ->).
    destruct (hydrated_nth _ _ _ _ _ _ Hj) as (rj & _ & ->).
    simpl.
    assert (clock st + i <= clock st + j)%nat as Hle by lia.
    specialize (Hclock _ _ Hle). lia.
Qed.

(** The keyword test of the loader finds what [namesAwaitedStage] says. *)
Lemma namesSupplierStage_spec record :
  namesSupplierStage host record = true
  <-> namesAwaitedStage host (prop record (js "message")).
Proof.
  unfold namesSupplierStage, namesAwaitedStage, mentionsSupplier.
  destruct (prop record (js "message")) as [[| | | s | |]|];
    try (split; [discriminate | intros (s' & H & _); discriminate]).
  rewrite !orb_true_iff, !includes_occursIn. split.
  - intros H. exists s. split; [reflexivity | tauto].
  - intros (s' & H & Hs). injection H as <-. tauto.
Qed.

(** C10.  On resuming a session whose phase is initial, after a non-empty
    history is hydrated the phase is awaiting_supplier exactly when the
    last record's message is a string in which, lower-cased, 'supplier',
    'quote' or 'negotiat' occurs, and it is initial otherwise; what the
    state endpoint reports plays no part. *)
Theorem resumed_phase_follows_the_last_message
  (sessionId : JSString) (older : list JSON) (lastRecord : JSON)
  (sessionState : Promise JSON) (st : State) :
  workflowPhase st = initial ->
  Forall (fun record => record <> JNull) (older ++ [lastRecord]) ->
  let resumed :=
    loadSessionHistory host sessionId
      (resolved {| messages_log := Some (older ++ [lastRecord]) |})
      sessionState st in
  (workflowPhase resumed = awaiting_supplier
   <-> exists s,
         prop lastRecord (js "message") = Some (JString s)
         /\ (occursIn (js "supplier") (toLowerCase host s)
             \/ occursIn (js "quote") (toLowerCase host s)
             \/ occursIn (js "negotiat") (toLowerCase host s)))
  /\ (workflowPhase resumed <> awaiting_supplier ->
      workflowPhase resumed = initial).
Proof.
  intros Hphase Hall resumed.
  assert (workflowPhase resumed
          = if namesSupplierStage host lastRecord
            then awaiting_supplier else initial) as Hresumed.
  { destruct (loadSessionHistory_hydrates sessionId (older ++ [lastRecord])
                sessionState st) as (_ & Hp).
    - now destruct older.
    - exact Hall.
    - unfold resumed. rewrite (Hp older lastRecord eq_refl), Hphase.
      reflexivity. }
  rewrite Hresumed. split.
  - change (exists s, prop lastRecord (js "message") = Some (JString s) /\ _)
      with (namesAwaitedStage host (prop lastRecord (js "message"))).
    rewrite <- namesSupplierStage_spec.
    destruct (namesSupplierStage host lastRecord);
      split; (reflexivity || discriminate).
  - destruct (namesSupplierStage host lastRecord); congruence.
Qed.

End HistoryFacts.

Lemma refHost_monotone : monotone refHost.
Proof. intros i j Hij. cbv [refHost Date_now]. lia. Qed.

(** The example history loaded into a freshly mounted component. *)
Lemma hydration_witness :
  exists historyMessages,
    messages (loadSessionHistory refHost (js "abc123")
                (resolved {| messages_log := Some Examples.historyLog |})
                (resolved Examples.sessionStatePayload)
                (mount refHost (Some (js "abc123"))))
    = messages (mount refHost (Some (js "abc123"))) ++ historyMessages
    /\ length historyMessages = 2%nat.
Proof.
  destruct (hydration_timestamps refHost (js "abc123") Examples.historyLog
              (resolved Examples.sessionStatePayload)
              (mount refHost (Some (js "abc123"))))
    as (historyMessages & Hmessages & Hlength & _).
  - exact refHost_monotone.
  - discriminate.
  - repeat constructor; discriminate.
  - exists historyMessages. split; [exact Hmessages | exact Hlength].
Defined.

(** The last record of the example history names the quote stage, in
    capitals. *)
Lemma resumed_phase_witness :
  workflowPhase
    (loadSessionHistory refHost (js "abc123")
       (resolved {| messages_log := Some Examples.historyLog |})
       (resolved Examples.sessionStatePayload)
       (mount refHost (Some (js "abc123"))))
  = awaiting_supplier.
Proof.
  apply (resumed_phase_follows_the_last_message refHost (js "abc123")
           [JObject [(js "step", JString (js "search"));
                     (js "message", JString (js "Found 8 matches"))]]
           (JObject [(js "step", JString (js "quote"));
                     (js "message", JString (js "Generated QUOTE for review"))])
           (resolved Examples.sessionStatePayload)
           (mount refHost (Some (js "abc123")))).
  - reflexivity.
  - repeat constructor; discriminate.
  - exists (js "Generated QUOTE for review"). split; [reflexivity|].
    right. left. now exists (js "generated "), (js " for review").
Defined.

(** A history whose last message names none of the stages leaves the
    phase initial, although an earlier message names one and the state
    endpoint reports the session as active. *)
Example plain_last_message_leaves_the_phase_initial :
  workflowPhase
    (loadSessionHistory refHost (js "abc123")
       (resolved {| messages_log := Some TimedExamples.plainLog |})
       (resolved Examples.sessionStatePayload)
       (mount refHost (Some (js "abc123"))))
  = initial.
Proof. reflexivity. Qed.

(** The hydrated timestamps of the example, one minute apart and behind
    the clock. *)
Example hydration_evaluated :
  map Message.timestamp
    (skipn 1 (messages
       (loadSessionHistory refHost (js "abc123")
          (resolved {| messages_log := Some Examples.historyLog |})
          (resolved Examples.sessionStatePayload)
          (mount refHost (Some (js "abc123"))))))
  = [1700000000001 - 120000; 1700000000002 - 60000].
Proof. reflexivity. Qed.

(* ================================================================== *)
(** ** Further properties of the stream reader *)

Lemma trimStart_padding (pad s : JSString) :
  Forall (fun c => isWhiteSpace c = true) pad ->
  trimStart (pad ++ s) = trimStart s.
Proof.
  induction 1 as [|c pad Hc _ IH]; simpl; [reflexivity|].
  now rewrite Hc.
Qed.

Lemma trimStart_blank (pad : JSString) :
  Forall (fun c => isWhiteSpace c = true) pad -> trimStart pad = [].
Proof.
  intros H. rewrite <- (app_nil_r pad). now rewrite trimStart_padding.
Qed.

(** What is left of [s ++ tail] once its leading white space is cut: the
    rest of [s] with the tail, unless [s] is blank. *)
Lemma trimStart_app (s tail : JSString) :
  trimStart (s ++ tail) =
  match trimStart s with
  | [] => trimStart tail
  | c :: rest => (c :: rest) ++ tail
  end.
Proof.
  induction s as [|c s IH]; simpl; [now destruct (trimStart tail)|].
  destruct (isWhiteSpace c); [exact IH | reflexivity].
Qed.

Lemma trimEnd_padding (s pad : JSString) :
  Forall (fun c => isWhiteSpace c = true) pad ->
  trimEnd (s ++ pad) = trimEnd s.
Proof.
  intros H. unfold trimEnd. rewrite rev_app_distr.
  rewrite trimStart_padding; [reflexivity|].
  apply Forall_rev. exact H.
Qed.

Lemma trim_padding (before line after : JSString) :
  Forall (fun c => isWhiteSpace c = true) before ->
  Forall (fun c => isWhiteSpace c = true) after ->
  trim (before ++ line ++ after) = trim line.
Proof.
  intros Hb Ha. unfold trim.
  rewrite trimStart_padding by assumption.
  rewrite trimStart_app.
  destruct (trimStart line) as [|c rest].
  - now rewrite trimStart_blank.
  - now rewrite trimEnd_padding.
Qed.

Section MoreStreamFacts.

Variable host : Host.

(** X1.  White space around a line does not matter: a line preceded and
    followed by any white space (a carriage return before the line feed,
    indentation) is handled exactly as the bare line. *)
Theorem surrounding_whitespace_is_ignored (before line after : JSString) :
  Forall (fun c => isWhiteSpace c = true) before ->
  Forall (fun c => isWhiteSpace c = true) after ->
  decodeLine host (before ++ line ++ after) = decodeLine host line.
Proof.
  intros Hb Ha. unfold decodeLine. now rewrite trim_padding.
Qed.

(** What [onData] appends to the timeline. *)
Lemma onData_messages isNew payload st :
  exists added,
    messages (onData host isNew payload st) = messages st ++ added
    /\ map (fun m => (Message.content m, Message.step m)) added
       = announced (data payload)
    /\ Forall (fun m => Message.role m = assistant
                        /\ Message.type m = js "response") added.
Proof.
  unfold onData, announced.
  destruct payload;
    try (exists []; simpl; rewrite app_nil_r; repeat split; constructor).
  destruct (truthy (prop (JObject members) (js "message")));
    destruct (truthy (prop (JObject members) (js "session_id")) && isNew);
    simpl;
    (eexists; split; [reflexivity|]; split; [reflexivity|];
     repeat constructor)
    || (exists []; rewrite app_nil_r; repeat split; constructor).
Qed.

Lemma events_messages render isNew events : forall st,
  exists added,
    messages (fold_left (fun st event => onEvent host render isNew event st)
                        events st) = messages st ++ added
    /\ map (fun m => (Message.content m, Message.step m)) added
       = flat_map announced events
    /\ Forall (fun m => Message.role m = assistant
                        /\ Message.type m = js "response") added.
Proof.
  induction events as [|event events IH]; intros st.
  - exists []. simpl. rewrite app_nil_r. repeat split. constructor.
  - simpl fold_left.
    destruct (IH (onEvent host render isNew event st))
      as (later & -> & Hlater & Hroles).
    destruct event as [payload|].
    + destruct (onData_messages isNew payload st)
        as (first & Hfirst & Hannounced & Hfirstroles).
      exists (first ++ later). simpl onEvent. rewrite Hfirst, <- app_assoc.
      split; [reflexivity|]. split.
      * rewrite map_app, Hannounced, Hlater. reflexivity.
      * apply Forall_app. now split.
    + exists later. repeat split; assumption.
Qed.

Lemma events_timers_exact render isNew events : forall st,
  timers (fold_left (fun st event => onEvent host render isNew event st)
                    events st) = timers st ++ scheduled render events.
Proof.
  induction events as [|event events IH]; intros st; simpl.
  - now rewrite app_nil_r.
  - rewrite IH. destruct event as [payload|]; simpl.
    + now destruct (onData_frame host isNew payload st) as (_ & _ & -> & _).
    + now rewrite <- app_assoc.
Qed.

Lemma stream_appends_one_entry_per_message_aux
  (render : State) (response : Response) (isNew : bool) (st : State) :
  exists added,
    messages (finalState (processStreamingResponse host render response
                                                   isNew st))
    = messages st ++ added
    /\ Forall (fun m => Message.role m = assistant
                        /\ Message.type m = js "response") added.
Proof.
  unfold processStreamingResponse.
  rewrite readLoop_events, finalState_finish.
  destruct (events_messages render isNew
              (wireEvents host TextDecoder.new (chunks (body response))) st)
    as (added & Hadded & _ & Hroles).
  now exists added.
Qed.

Lemma stream_timers_aux
  (render : State) (response : Response) (isNew : bool) (st : State) :
  timers (finalState (processStreamingResponse host render response isNew st))
  = timers st
    ++ scheduled render
         (wireEvents host TextDecoder.new (chunks (body response))).
Proof.
  unfold processStreamingResponse.
  now rewrite readLoop_events, finalState_finish, events_timers_exact.
Qed.

(** X2.  A stream puts on the timeline one entry per data event whose
    message is truthy, in the order of the events, after the entries that
    were there; each is of role assistant and type response and carries the
    event's message and step.  Events without a message, and lines that
    are no event, add nothing. *)
Theorem stream_appends_one_entry_per_message
  (render : State) (response : Response) (isNew : bool) (st : State) :
  exists added,
    messages (finalState (processStreamingResponse host render response
                                                   isNew st))
    = messages st ++ added
    /\ map (fun m => (Message.content m, Message.step m)) added
       = flat_map announced
           (wireEvents host TextDecoder.new (chunks (body response)))
    /\ Forall (fun m => Message.role m = assistant
                        /\ Message.type m = js "response") added.
Proof.
  unfold processStreamingResponse.
  rewrite readLoop_events, finalState_finish.
  apply events_messages.
Qed.

(** X3.  A stream schedules one callback per completion marker, each with
    a delay of 1000 ms and the phase of the submitting render, after the
    callbacks already pending; a stream without a completion marker
    schedules none. *)
Theorem stream_schedules_one_callback_per_done_line
  (render : State) (response : Response) (isNew : bool) (st : State) :
  timers (finalState (processStreamingResponse host render response isNew st))
  = timers st
    ++ scheduled render
         (wireEvents host TextDecoder.new (chunks (body response)))
  /\ (Forall (fun event => event <> doneSignal)
             (wireEvents host TextDecoder.new (chunks (body response))) ->
      timers (finalState (processStreamingResponse host render response
                                                   isNew st))
      = timers st).
Proof.
  unfold processStreamingResponse.
  rewrite readLoop_events, finalState_finish, events_timers_exact.
  split; [reflexivity|].
  intros Hnone.
  induction (wireEvents host TextDecoder.new (chunks (body response)))
    as [|event events IH]; simpl; [now rewrite app_nil_r|].
  inversion Hnone as [|? ? Hev Hrest]; subst.
  destruct event; [exact (IH Hrest) | congruence].
Qed.

End MoreStreamFacts.

(* ================================================================== *)
(** ** Further properties of the operations and of the submit handler *)

Lemma untouched_inputMessage : untouchedByStream inputMessage.
Proof. repeat split. Qed.

Lemma untouched_workflowStatus : untouchedByStream workflowStatus.
Proof. repeat split. Qed.

Lemma untouched_showPostActions : untouchedByStream showPostActions.
Proof. repeat split. Qed.

Section Frame.

Variable host : Host.
Context {A : Type} (f : State -> A) (Hf : untouchedByStream f).

Lemma onData_untouched isNew payload st :
  f (onData host isNew payload st) = f st.
Proof.
  destruct Hf as (Hm & Hc & Hd & Ht & Hs & Hn & Hi & _).
  unfold onData, addAssistantMessage.
  destruct payload; try reflexivity.
  tests; now rewrite ?Ht, ?Hs, ?Hn, ?Hi, ?Hm, ?Hd, ?Hc.
Qed.

Lemma events_untouched render isNew events : forall st,
  f (fold_left (fun st event => onEvent host render isNew event st)
               events st) = f st.
Proof.
  induction events as [|event events IH]; intros st; simpl; [reflexivity|].
  rewrite IH. destruct event as [payload|]; simpl.
  - apply onData_untouched.
  - now destruct Hf as (_ & _ & _ & _ & _ & _ & _ & Ht & _).
Qed.

Lemma consume_untouched render fetched isNew before st :
  (forall st, f (before st) = f st) ->
  f (finalState (consume host render fetched isNew before st)) = f st.
Proof.
  intros Hbefore. unfold consume.
  destruct fetched as [response|message]; [|reflexivity].
  destruct (negb (ok response)).
  - now destruct (responseText response).
  - unfold processStreamingResponse.
    now rewrite readLoop_events, finalState_finish, events_untouched.
Qed.

Lemma recover_untouched failed toastMessage result :
  f (recover host failed toastMessage result) = f (finalState result).
Proof.
  destruct Hf as (Hm & Hc & Hd & Ht & _).
  destruct result; simpl; [reflexivity|].
  unfold addSystemMessage. now rewrite Ht, Hm, Hd, Hc.
Qed.

Lemma dispatch_untouched render fetched st :
  f (dispatch host render fetched st) = f st.
Proof.
  assert (forall r st, f (request r st) = f st) as Hr
      by now destruct Hf as (_ & _ & _ & _ & _ & _ & _ & _ & Hr & _).
  assert (forall p st, f (setWorkflowPhase p st) = f st) as Hp
      by now destruct Hf as (_ & _ & _ & _ & _ & _ & _ & _ & _ & Hp).
  unfold dispatch, startNewWorkflow, continueWorkflow, replayWorkflow.
  tests; rewrite recover_untouched, consume_untouched, ?Hr;
    (reflexivity || intros; now rewrite ?Hp).
Qed.

End Frame.

Section MoreOperationFacts.

Variable host : Host.

(** The session and the route as a stream of an existing workflow leaves
    them. *)
Lemma events_session_continue render events : forall st,
  let st' := fold_left (fun st event => onEvent host render false event st)
                       events st in
  sessionInfo st' = sessionInfo st
  /\ currentSession st' = currentSession st
  /\ navigations st' = navigations st.
Proof.
  induction events as [|event events IH]; intros st; simpl;
    [repeat split|].
  destruct (IH (onEvent host render false event st)) as (-> & -> & ->).
  destruct event as [payload|]; simpl; [|repeat split].
  unfold onData. destruct payload; try (repeat split; reflexivity).
  rewrite andb_false_r. tests; repeat split; reflexivity.
Qed.

(** X5.  Continue and Replay never write the session: whatever the stream
    carries (session ids included) and however the call ends, the session
    info, the current session of the app context and the route are what
    they were. *)
Theorem continue_and_replay_keep_the_session
  (render : State) (sessionId : JSValue) (input : JSString)
  (fetched : Promise Response) (st : State) :
  (let st' := continueWorkflow host render sessionId input fetched st in
   sessionInfo st' = sessionInfo st
   /\ currentSession st' = currentSession st
   /\ navigations st' = navigations st)
  /\ (let st' := replayWorkflow host render input fetched st in
      sessionInfo st' = sessionInfo st
      /\ currentSession st' = currentSession st
      /\ navigations st' = navigations st).
Proof.
  assert (forall before st0,
             (forall s, sessionInfo (before s) = sessionInfo s
                        /\ currentSession (before s) = currentSession s
                        /\ navigations (before s) = navigations s) ->
             let st' := finalState (consume host render fetched false
                                            before st0) in
             sessionInfo st' = sessionInfo st0
             /\ currentSession st' = currentSession st0
             /\ navigations st' = navigations st0) as Hconsume.
  { intros before st0 Hbefore. unfold consume.
    destruct fetched as [response|message]; [|repeat split].
    destruct (negb (ok response)).
    - destruct (responseText response); repeat split.
    - unfold processStreamingResponse.
      rewrite readLoop_events, finalState_finish.
      destruct (events_session_continue render
                  (wireEvents host TextDecoder.new (chunks (body response)))
                  (before st0)) as (-> & -> & ->).
      apply Hbefore. }
  assert (forall failed toastMessage result,
             let st' := recover host failed toastMessage result in
             sessionInfo st' = sessionInfo (finalState result)
             /\ currentSession st' = currentSession (finalState result)
             /\ navigations st' = navigations (finalState result))
    as Hrecover by (intros ? ? []; repeat split).
  unfold continueWorkflow, replayWorkflow. split.
  - match goal with
    | |- context [recover host ?f ?t ?r] =>
        destruct (Hrecover f t r) as (-> & -> & ->)
    end.
    apply (Hconsume (fun st => st)
             (request (apiService.continueWorkflow sessionId input) st)).
    intros; repeat split.
  - match goal with
    | |- context [recover host ?f ?t ?r] =>
        destruct (Hrecover f t r) as (-> & -> & ->)
    end.
    apply (Hconsume (setWorkflowPhase awaiting_supplier)
             (request (apiService.replayWorkflow
                         (SessionInfo.id (sessionInfo render)) input) st)).
    intros; repeat split.
Qed.

(** X4.  When reading the body fails after some chunks, what the chunks
    already read put on the timeline stays, and one system entry of type
    error follows it, carrying the message of the failure: a Continue call
    is not rolled back. *)
Theorem continue_keeps_entries_read_before_a_failure
  (render : State) (sessionId : JSValue) (input : JSString)
  (response : Response) (message : JSString) (st : State) :
  ok response = true ->
  failure (body response) = Some message ->
  exists added entry,
    messages (continueWorkflow host render sessionId input
                               (resolved response) st)
    = messages st ++ added ++ [entry]
    /\ map (fun m => (Message.content m, Message.step m)) added
       = flat_map announced
           (wireEvents host TextDecoder.new (chunks (body response)))
    /\ Message.role entry = system
    /\ Message.type entry = js "error"
    /\ Message.content entry
       = str (js "Failed to continue workflow: " ++ message).
Proof.
  intros Hok Hfail. unfold continueWorkflow, consume.
  rewrite Hok. simpl negb. cbv iota.
  unfold processStreamingResponse. rewrite readLoop_events, Hfail.
  destruct (events_messages host render false
              (wireEvents host TextDecoder.new (chunks (body response)))
              (request (apiService.continueWorkflow sessionId input) st))
    as (added & Hadded & Hannounced & _).
  exists added. eexists. simpl. rewrite Hadded. simpl.
  rewrite <- app_assoc. repeat split. exact Hannounced.
Qed.

(** X6.  A Start or a Replay call whose request is rejected, or answered
    with a status that is not ok, appends exactly one system entry of type
    error and sends nothing else; the session info and the phase are what
    they were -- in particular a failed Replay does not move the phase to
    awaiting_supplier. *)
Theorem start_and_replay_failure_append_one_error_entry
  (render : State) (input : JSString) (fetched : Promise Response)
  (st : State) :
  transportFailure fetched ->
  (let st' := startNewWorkflow host render input fetched st in
   (exists entry,
       messages st' = messages st ++ [entry]
       /\ Message.role entry = system
       /\ Message.type entry = js "error")
   /\ sessionInfo st' = sessionInfo st
   /\ workflowPhase st' = workflowPhase st
   /\ requests st'
      = requests st ++ [apiService.startWorkflow input (js "quote")])
  /\ (let st' := replayWorkflow host render input fetched st in
      (exists entry,
          messages st' = messages st ++ [entry]
          /\ Message.role entry = system
          /\ Message.type entry = js "error")
      /\ sessionInfo st' = sessionInfo st
      /\ workflowPhase st' = workflowPhase st
      /\ requests st'
         = requests st
           ++ [apiService.replayWorkflow (SessionInfo.id (sessionInfo render))
                                         input]).
Proof.
  intros Hfail. unfold startNewWorkflow, replayWorkflow, consume.
  destruct fetched as [response|message]; simpl in Hfail.
  - rewrite Hfail. simpl negb. cbv iota.
    destruct (responseText response);
      (split; (split; [eexists; repeat split; reflexivity
                      | repeat split; reflexivity])).
  - split; (split; [eexists; repeat split; reflexivity
                   | repeat split; reflexivity]).
Qed.

(** Each operation sends its one request, and nothing it does afterwards
    sends another. *)
Lemma operations_send_one_request render input sessionId fetched st :
  requests (startNewWorkflow host render input fetched st)
  = requests st ++ [apiService.startWorkflow input (js "quote")]
  /\ requests (continueWorkflow host render sessionId input fetched st)
     = requests st ++ [apiService.continueWorkflow sessionId input]
  /\ requests (replayWorkflow host render input fetched st)
     = requests st
       ++ [apiService.replayWorkflow (SessionInfo.id (sessionInfo render))
                                     input].
Proof.
  unfold startNewWorkflow, continueWorkflow, replayWorkflow.
  repeat split;
    match goal with
    | |- requests (recover _ ?f ?t ?r) = _ =>
        destruct (recover_frame host f t r) as (_ & _ & _ & _ & -> & _)
    end.
  - now destruct (consume_frame host render fetched true
                    (request (apiService.startWorkflow input (js "quote")) st))
      as (_ & _ & -> & _).
  - now destruct (consume_frame host render fetched false
                    (request (apiService.continueWorkflow sessionId input) st))
      as (_ & _ & -> & _).
  - now destruct (consume_replay_frame host render fetched
                    (request (apiService.replayWorkflow
                                (SessionInfo.id (sessionInfo render)) input)
                             st))
      as (_ & -> & _).
Qed.

(** X7.  A submission accepted in replay mode sends exactly one request,
    the replay of the render's session with the typed input, whatever the
    phase and the session id are. *)
Theorem replay_mode_sends_a_replay
  (render : State) (fetched : Promise Response) (st : State) :
  refuses render = false ->
  actionMode render = Some replay ->
  requests (handleSendMessage host render fetched st)
  = requests st
    ++ [apiService.replayWorkflow (SessionInfo.id (sessionInfo render))
                                  (inputMessage render)].
Proof.
  intros Hgo Hmode. unfold handleSendMessage, dispatch.
  rewrite Hgo, Hmode. simpl.
  now destruct (operations_send_one_request render (inputMessage render)
                  (SessionInfo.id (sessionInfo render)) fetched
                  (beginSend host render st)) as (_ & _ & ->).
Qed.

(** X8.  A submission accepted with no action mode, in the initial phase
    and with the session id 'new', sends exactly one request: the start of
    a workflow with the typed input and the input type 'quote'. *)
Theorem new_session_sends_a_start
  (render : State) (fetched : Promise Response) (st : State) :
  refuses render = false ->
  actionMode render = None ->
  workflowPhase render = initial ->
  SessionInfo.id (sessionInfo render) = str (js "new") ->
  requests (handleSendMessage host render fetched st)
  = requests st
    ++ [apiService.startWorkflow (inputMessage render) (js "quote")].
Proof.
  intros Hgo Hmode Hphase Hid. unfold handleSendMessage, dispatch.
  rewrite Hgo, Hmode, Hphase, Hid. simpl.
  now destruct (operations_send_one_request render (inputMessage render)
                  (str (js "new")) fetched (beginSend host render st))
    as (-> & _).
Qed.

(** X9.  A submission accepted outside replay mode sends exactly one
    request, the continuation of the render's session with the typed
    input, as soon as the mode is supplier_response, or the phase is
    awaiting_supplier, or the session id is not the string 'new'. *)
Theorem established_session_sends_a_continue
  (render : State) (fetched : Promise Response) (st : State) :
  refuses render = false ->
  actionMode render <> Some replay ->
  actionMode render = Some supplier_response
  \/ workflowPhase render = awaiting_supplier
  \/ strictEqualsString (SessionInfo.id (sessionInfo render)) (js "new")
     = false ->
  requests (handleSendMessage host render fetched st)
  = requests st
    ++ [apiService.continueWorkflow (SessionInfo.id (sessionInfo render))
                                    (inputMessage render)].
Proof.
  intros Hgo Hnot Hwhy. unfold handleSendMessage, dispatch. rewrite Hgo.
  destruct (operations_send_one_request render (inputMessage render)
              (SessionInfo.id (sessionInfo render)) fetched
              (beginSend host render st)) as (_ & Hcontinue & _).
  destruct (actionMode render) as [[|]|]; simpl;
    [congruence | exact Hcontinue |].
  destruct (workflowPhase render); simpl; [|exact Hcontinue].
  destruct Hwhy as [H|[H|H]]; try discriminate.
  rewrite H. exact Hcontinue.
Qed.

End MoreOperationFacts.

Section MoreHandlerFacts.

Variable host : Host.

(** What an operation appends: entries of the stream, then at most the
    entry of its [catch]; none of them is the user's. *)
Lemma operation_messages render failed toastMessage fetched isNew before st :
  (forall s, messages (before s) = messages s) ->
  exists rest,
    messages (recover host failed toastMessage
                (consume host render fetched isNew before st))
    = messages st ++ rest
    /\ Forall (fun m => Message.role m <> user) rest.
Proof.
  intros Hbefore.
  assert (exists added,
             messages (finalState (consume host render fetched isNew before st))
             = messages st ++ added
             /\ Forall (fun m => Message.role m <> user) added)
    as (added & Hadded & Hroles).
  { unfold consume. destruct fetched as [response|message];
      [|exists []; simpl; now rewrite app_nil_r].
    destruct (negb (ok response)).
    - destruct (responseText response); exists []; simpl;
        now rewrite app_nil_r.
    - destruct (stream_appends_one_entry_per_message_aux host render response
                  isNew (before st)) as (added & Hadded & Hroles).
      exists added. rewrite Hadded, Hbefore. split; [reflexivity|].
      eapply Forall_impl; [|exact Hroles].
      intros m [Hrole _]. rewrite Hrole. discriminate. }
  destruct (consume host render fetched isNew before st) as [s|message s];
    simpl in *.
  - now exists added.
  - exists (added ++ [Message.mk
                        (id_now_random (Date_now host (clock s))
                                       (Math_random host (draws s)))
                        system (str (failed ++ message))
                        (Date_now host (S (clock s))) undefined (js "error")]).
    rewrite Hadded, <- app_assoc. split; [reflexivity|].
    apply Forall_app. split; [exact Hroles|].
    constructor; [discriminate | constructor].
Qed.

Lemma dispatch_messages render fetched st :
  exists rest,
    messages (dispatch host render fetched st) = messages st ++ rest
    /\ Forall (fun m => Message.role m <> user) rest.
Proof.
  unfold dispatch, startNewWorkflow, continueWorkflow, replayWorkflow.
  tests;
    match goal with
    | |- exists rest,
          messages (recover host ?f ?t
                      (consume host render fetched ?isNew ?before ?s))
          = _ /\ _ =>
        exact (operation_messages render f t fetched isNew before s
                 (fun _ => eq_refl))
    end.
Qed.

(** X10.  An accepted submission puts the user's entry, with the typed
    input as its content, right after the entries that were on the
    timeline, and every entry the call adds comes after it; none of the
    earlier entries is removed or changed. *)
Theorem submission_appends_the_user_entry_first
  (render : State) (fetched : Promise Response) (st : State) :
  refuses render = false ->
  exists userMessage rest,
    messages (handleSendMessage host render fetched st)
    = messages st ++ userMessage :: rest
    /\ Message.role userMessage = user
    /\ Message.content userMessage = str (inputMessage render)
    /\ Forall (fun m => Message.role m <> user) rest.
Proof.
  intros Hgo. unfold handleSendMessage. rewrite Hgo.
  destruct (dispatch_messages render fetched (beginSend host render st))
    as (rest & Hrest & Hroles).
  eexists. exists rest. simpl. rewrite Hrest. simpl.
  rewrite <- app_assoc. repeat split. exact Hroles.
Qed.

(** X17.  [computed.canStartNewSession] of the app context is false while
    an accepted submission runs and true once it has ended. *)
Theorem no_new_session_while_a_submission_runs
  (render : State) (fetched : Promise Response) (st : State)
  (context : AppContext.state) :
  refuses render = false ->
  let running := dispatch host render fetched (beginSend host render st) in
  let ended := handleSendMessage host render fetched st in
  AppContext.canStartNewSession
    (AppContext.setWorkflowStatus (str (workflowStatus running)) context)
  = false
  /\ AppContext.canStartNewSession
       (AppContext.setWorkflowStatus (str (workflowStatus ended)) context)
     = true.
Proof.
  intros Hgo. unfold handleSendMessage. rewrite Hgo. simpl.
  rewrite (dispatch_untouched host workflowStatus untouched_workflowStatus).
  split; reflexivity.
Qed.

Lemma fire_keeps_supplier_response timer st :
  actionMode st = Some supplier_response ->
  actionMode (fire timer st) = Some supplier_response.
Proof.
  intros H. unfold fire. destruct (callback timer) as [|[|]]; simpl;
    (exact H || reflexivity).
Qed.

Lemma fire_fold_reaches_supplier_response pending : forall st,
  actionMode st = Some supplier_response
  \/ Exists (fun timer => callback timer = afterDone awaiting_supplier)
            pending ->
  actionMode (fold_left (fun st timer => fire timer st) pending st)
  = Some supplier_response.
Proof.
  induction pending as [|timer pending IH]; intros st H; simpl.
  - destruct H as [H|H]; [exact H | inversion H].
  - apply IH. destruct H as [H|H].
    + left. now apply fire_keeps_supplier_response.
    + inversion H as [? ? Hhere|? ? Hlater]; subst.
      * left. unfold fire. now rewrite Hhere.
      * now right.
Qed.

(** When no callback fires before the call has ended: a submission
    accepted outside replay mode by a render in the awaiting_supplier
    phase, whose stream holds a completion marker, leaves the action mode
    at supplier_response once the pending callbacks have fired. *)
Lemma uninterrupted_done_callback_asks_for_the_supplier
  (render : State) (response : Response) (st : State) :
  refuses render = false ->
  actionMode render <> Some replay ->
  workflowPhase render = awaiting_supplier ->
  ok response = true ->
  In doneSignal (wireEvents host TextDecoder.new (chunks (body response))) ->
  actionMode (fireAll (handleSendMessage host render (resolved response) st))
  = Some supplier_response.
Proof.
  intros Hgo Hnot Hphase Hok Hdone.
  unfold handleSendMessage, dispatch. rewrite Hgo, Hphase.
  assert (isMode (actionMode render) replay = false) as ->
      by (destruct (actionMode render) as [[|]|]; simpl; congruence).
  rewrite orb_true_r.
  unfold continueWorkflow, fireAll. simpl timers.
  apply fire_fold_reaches_supplier_response. right.
  match goal with
  | |- context [recover host ?f ?t ?r] =>
      destruct (recover_frame host f t r) as (_ & _ & _ & -> & _)
  end.
  unfold consume. rewrite Hok. simpl negb. cbv iota.
  rewrite (stream_timers_aux host render response false).
  apply Exists_app. right.
  induction (wireEvents host TextDecoder.new (chunks (body response)))
    as [|event events IH]; [inversion Hdone|].
  destruct Hdone as [->|Hin]; simpl.
  - left. now rewrite Hphase.
  - apply Exists_app. right. now apply IH.
Qed.

(** X13.  The post-conversation panel and the input area are never both
    rendered, and unless the component is loading one of them is: the user
    always has exactly one way to go on. *)
Theorem panel_and_input_exclude_each_other (render : State) :
  postActionsVisible render && inputAreaVisible render = false
  /\ (isLoading render = false ->
      postActionsVisible render || inputAreaVisible render = true).
Proof.
  unfold postActionsVisible, inputAreaVisible.
  destruct (showPostActions render), (isLoading render),
    (actionMode render), (workflowPhase render);
    split; (reflexivity || discriminate || intros _; reflexivity).
Qed.

(** X14.  Asking for a replay and then cancelling always ends in the
    initial phase with no action mode, an empty input and the post actions
    shown, even when the session was awaiting the supplier before: the
    replay request has already reset the phase. *)
Theorem cancelled_replay_ends_in_the_initial_phase (st : State) :
  let asked := handleReplayWorkflow st in
  let cancelled := cancelAction asked asked in
  actionMode asked = Some replay
  /\ actionMode cancelled = None
  /\ workflowPhase cancelled = initial
  /\ showPostActions cancelled = true
  /\ inputMessage cancelled = []
  /\ postActionsVisible cancelled = negb (isLoading st).
Proof.
  unfold postActionsVisible. simpl.
  repeat split. now destruct (isLoading st).
Qed.

Lemma JSString_eqb_refl (s : JSString) : JSString_eqb s s = true.
Proof. unfold JSString_eqb. now destruct (list_eq_dec Z.eq_dec s s). Qed.

(** X16.  A freshly mounted component never resumes a session: whatever
    session id the route carries, the guard of the resuming effect is
    false in the first render, because the session info starts out with
    that very id. *)
Theorem mount_never_loads_the_history (sessionId : option JSString) :
  shouldLoadHistory sessionId (mount host sessionId) = false.
Proof.
  destruct sessionId as [[|c s]|]; try reflexivity.
  unfold shouldLoadHistory, mount. simpl.
  rewrite JSString_eqb_refl. apply andb_false_r.
Qed.

End MoreHandlerFacts.

(* ================================================================== *)
(** ** Further properties of resuming a session *)

Section MoreHistoryFacts.

Variable host : Host.

Lemma last_hydrated len index older lastRecord readings :
  exists lastMessage,
    last (map (fun m => Some m)
              (hydrated host len index (older ++ [lastRecord]) readings)) None
    = Some lastMessage
    /\ Message.content lastMessage = prop lastRecord (js "message").
Proof.
  rewrite hydrated_app. simpl hydrated at 2. rewrite last_some.
  eexists. split; reflexivity.
Qed.

(** The three ways the hydration block ends. *)
Lemma hydrate_completes older lastRecord st0 :
  Forall (fun record => record <> JNull) (older ++ [lastRecord]) ->
  let log := older ++ [lastRecord] in
  let st1 := setMessages
               (fun prev =>
                  prev ++ hydrated host (length log) 0 log (clock st0))
               (readClock (clock st0 + length log - clock st0) st0) in
  hydrate host log st0 =
  match mentionsSupplier host (prop lastRecord (js "message")) with
  | None => throws (js "toLowerCase is not a function") st1
  | Some found =>
      normal (setTimeout {| callback := showPostActionsLater; delay := 500 |}
                (if found then setWorkflowPhase awaiting_supplier st1
                 else st1))
  end.
Proof.
  intros Hall. simpl. unfold hydrate.
  rewrite (mapHistory_records host _ _ 0 (clock st0) Hall).
  destruct (last_hydrated (length (older ++ [lastRecord])) 0 older lastRecord
              (clock st0)) as (lastMessage & -> & ->).
  reflexivity.
Qed.

Lemma mapHistory_null len log : forall index readings,
  In JNull log -> snd (mapHistory host len index log readings) = None.
Proof.
  induction log as [|msg log IH]; intros index readings Hin; [inversion Hin|].
  simpl. destruct msg; try reflexivity;
    (destruct Hin as [Hin|Hin]; [discriminate|]);
    specialize (IH (S index) (S readings) Hin);
    destruct (mapHistory host len (S index) log (S readings)) as [r rest];
    simpl in IH |- *; now rewrite IH.
Qed.

(** What the hydration block leaves, however it ends. *)
Lemma hydrate_frame log st0 :
  exists added,
    messages (finalState (hydrate host log st0)) = messages st0 ++ added
    /\ actionMode (finalState (hydrate host log st0)) = actionMode st0
    /\ requests (finalState (hydrate host log st0)) = requests st0.
Proof.
  unfold hydrate.
  destruct (mapHistory host (length log) 0 log (clock st0))
    as [readings [historyMessages|]].
  - exists historyMessages.
    destruct (last (map (fun m => Some m) historyMessages) None)
      as [lastMessage|];
      [destruct (mentionsSupplier host (Message.content lastMessage))
         as [[|]|]|];
      repeat split.
  - exists []. simpl. rewrite app_nil_r. repeat split.
Qed.

(** X18.  However the two requests go, [loadSessionHistory] ends with the
    component not loading, never removes or changes an entry that was on
    the timeline, never writes the action mode, and its first request is
    the one for the history. *)
Theorem loading_the_history_always_ends_not_loading
  (sessionId : JSString) (history : Promise History)
  (sessionState : Promise JSON) (st : State) :
  let st' := loadSessionHistory host sessionId history sessionState st in
  isLoading st' = false
  /\ (exists added, messages st' = messages st ++ added)
  /\ actionMode st' = actionMode st
  /\ (exists more,
         requests st'
         = requests st ++ apiService.getWorkflowHistory sessionId :: more).
Proof.
  unfold loadSessionHistory. cbv zeta.
  set (st0 := request (apiService.getWorkflowHistory sessionId)
                      (setIsLoading true st)).
  set (afterHistory := match history with
                       | resolved _ => _
                       | rejected _ => _
                       end).
  assert ((exists added,
              messages (finalState afterHistory) = messages st ++ added)
          /\ actionMode (finalState afterHistory) = actionMode st
          /\ requests (finalState afterHistory)
             = requests st ++ [apiService.getWorkflowHistory sessionId])
    as ((added & Hadded) & Hmode & Hrequests).
  { subst afterHistory.
    destruct history as [payload|message];
      [|split; [exists []; simpl; now rewrite app_nil_r | now split]].
    destruct (messages_log payload) as [[|msg log]|];
      try (split; [exists []; simpl; now rewrite app_nil_r | now split]).
    destruct (hydrate_frame (msg :: log) st0)
      as (added & Hadded & Hmode & Hrequests).
    split; [now exists added | now split]. }
  clearbody afterHistory.
  destruct afterHistory as [s|m s]; simpl in Hadded, Hmode, Hrequests.
  - destruct sessionState as [[]|]; simpl;
      rewrite ?Hadded, ?Hmode, ?Hrequests;
      (split; [reflexivity|]; split; [now exists added|];
       split; [reflexivity|];
       exists [apiService.getWorkflowState sessionId];
       now rewrite <- app_assoc).
  - simpl. rewrite Hadded, Hmode, Hrequests.
    split; [reflexivity|]. split; [now exists added|].
    split; [reflexivity|]. now exists [].
Qed.

(** When the history request fails, nothing is hydrated and nothing
    of the session changes: timeline, session info, phase and pending
    callbacks are what they were, the state endpoint is not asked, and an
    error toast is shown. *)
Lemma failed_history_request_changes_nothing
  (sessionId message : JSString) (sessionState : Promise JSON) (st : State) :
  let st' := loadSessionHistory host sessionId (rejected message)
                                sessionState st in
  messages st' = messages st
  /\ sessionInfo st' = sessionInfo st
  /\ workflowPhase st' = workflowPhase st
  /\ timers st' = timers st
  /\ requests st' = requests st ++ [apiService.getWorkflowHistory sessionId]
  /\ toast st' = Some {| toast_message :=
                           text (js "Failed to load session history");
                         toast_type := js "error" |}.
Proof. repeat split. Qed.

(** X20.  A history with a [null] record is dropped as a whole: no entry
    is appended, not even for the records before it, the phase and the
    session info are unchanged, the state endpoint is not asked, and an
    error toast is shown. *)
Theorem null_record_drops_the_whole_history
  (sessionId : JSString) (log : list JSON) (sessionState : Promise JSON)
  (st : State) :
  In JNull log ->
  let st' := loadSessionHistory host sessionId
               (resolved {| messages_log := Some log |}) sessionState st in
  messages st' = messages st
  /\ sessionInfo st' = sessionInfo st
  /\ workflowPhase st' = workflowPhase st
  /\ timers st' = timers st
  /\ requests st' = requests st ++ [apiService.getWorkflowHistory sessionId]
  /\ toast st' = Some {| toast_message :=
                           text (js "Failed to load session history");
                         toast_type := js "error" |}.
Proof.
  intros Hin. unfold loadSessionHistory. simpl messages_log.
  destruct log as [|msg log]; [inversion Hin|].
  unfold hydrate.
  pose proof (mapHistory_null (length (msg :: log)) (msg :: log) 0
                (clock (request (apiService.getWorkflowHistory sessionId)
                                (setIsLoading true st))) Hin) as Hnull.
  destruct (mapHistory host (length (msg :: log)) 0 (msg :: log) _)
    as [readings result].
  simpl in Hnull. subst result. repeat split.
Qed.

(** X21.  When there is no history (no [messages_log], or an empty one)
    and the state endpoint answers with an object, the timeline, the phase
    and the pending callbacks are unchanged, the session info is the
    route's session id with the reported status, intent and confidence,
    and the guard of the resuming effect is closed for that id. *)
Theorem empty_history_takes_the_reported_state
  (sessionId : JSString) (log : option (list JSON))
  (members : list (JSString * JSON)) (st : State) :
  log = None \/ log = Some [] ->
  let payload := JObject members in
  let st' := loadSessionHistory host sessionId
               (resolved {| messages_log := log |}) (resolved payload) st in
  messages st' = messages st
  /\ workflowPhase st' = workflowPhase st
  /\ timers st' = timers st
  /\ sessionInfo st'
     = SessionInfo.mk (str sessionId) (prop payload (js "status"))
                      (prop payload (js "intent"))
                      (prop payload (js "intent_confidence"))
  /\ currentSession st' = Some payload
  /\ requests st'
     = requests st ++ [apiService.getWorkflowHistory sessionId;
                       apiService.getWorkflowState sessionId]
  /\ shouldLoadHistory (Some sessionId) st' = false.
Proof.
  intros [-> | ->]; simpl; repeat split;
    try (now rewrite <- app_assoc);
    unfold shouldLoadHistory; destruct sessionId as [|c s]; try reflexivity;
    simpl; rewrite JSString_eqb_refl; apply andb_false_r.
Qed.

(** X22.  Hydration is not rolled back: when the history is hydrated and
    the state request then fails, the hydrated entries stay on the
    timeline and the callback that offers the post actions stays
    scheduled, while the session info is left as it was and an error toast
    is shown. *)
Theorem hydration_survives_a_failed_state_request
  (sessionId message : JSString) (older : list JSON) (lastRecord : JSON)
  (s : JSString) (st : State) :
  Forall (fun record => record <> JNull) (older ++ [lastRecord]) ->
  prop lastRecord (js "message") = Some (JString s) ->
  let log := older ++ [lastRecord] in
  let st' := loadSessionHistory host sessionId
               (resolved {| messages_log := Some log |}) (rejected message)
               st in
  messages st' = messages st ++ hydrated host (length log) 0 log (clock st)
  /\ timers st'
     = timers st ++ [{| callback := showPostActionsLater; delay := 500 |}]
  /\ sessionInfo st' = sessionInfo st
  /\ toast st' = Some {| toast_message :=
                           text (js "Failed to load session history");
                         toast_type := js "error" |}.
Proof.
  intros Hall Hstring log. unfold loadSessionHistory. simpl messages_log.
  assert (exists msg rest, log = msg :: rest) as (msg & rest & Hlog)
      by (unfold log; destruct older; simpl; eauto).
  rewrite Hlog, <- Hlog. unfold log.
  rewrite (hydrate_completes older lastRecord _ Hall), Hstring.
  simpl mentionsSupplier. cbv iota.
  destruct (includes (toLowerCase host s) (js "supplier")
            || includes (toLowerCase host s) (js "quote")
            || includes (toLowerCase host s) (js "negotiat"));
    repeat split.
Qed.

(** X23.  When the last record's message is not a string, the hydrated
    entries are appended but the loader stops there: the phase is
    unchanged, no callback is scheduled, the state endpoint is not asked,
    the session info is unchanged, and an error toast is shown. *)
Theorem non_string_last_message_stops_the_loader
  (sessionId : JSString) (older : list JSON) (lastRecord : JSON)
  (sessionState : Promise JSON) (st : State) :
  Forall (fun record => record <> JNull) (older ++ [lastRecord]) ->
  mentionsSupplier host (prop lastRecord (js "message")) = None ->
  let log := older ++ [lastRecord] in
  let st' := loadSessionHistory host sessionId
               (resolved {| messages_log := Some log |}) sessionState st in
  messages st' = messages st ++ hydrated host (length log) 0 log (clock st)
  /\ workflowPhase st' = workflowPhase st
  /\ timers st' = timers st
  /\ sessionInfo st' = sessionInfo st
  /\ requests st' = requests st ++ [apiService.getWorkflowHistory sessionId]
  /\ toast st' = Some {| toast_message :=
                           text (js "Failed to load session history");
                         toast_type := js "error" |}.
Proof.
  intros Hall Hnone log. unfold loadSessionHistory. simpl messages_log.
  assert (exists msg rest, log = msg :: rest) as (msg & rest & Hlog)
      by (unfold log; destruct older; simpl; eauto).
  rewrite Hlog, <- Hlog. unfold log.
  rewrite (hydrate_completes older lastRecord _ Hall), Hnone.
  repeat split.
Qed.

End MoreHistoryFacts.

(* ================================================================== *)
(** ** services/api.js and context/AppContext.jsx *)

(** X24.  [handleResponse] never returns a value for a response that is
    not ok.  When the body of such a response is no JSON the error is
    'Unknown error', whatever the status; the status only shows, as
    'HTTP <status>', when the body is an object with neither a truthy
    [detail] nor a truthy [error]; a truthy [detail] wins over [error]. *)
Theorem failed_response_always_throws (response : api.JsonResponse) :
  api.ok response = false ->
  (forall value, api.handleResponse response <> api.returned value)
  /\ (forall message,
         api.json response = rejected message ->
         api.handleResponse response
         = api.threwError (str (js "Unknown error")))
  /\ (forall members,
         api.json response = resolved (JObject members) ->
         api.handleResponse response
         = api.threwError
             (if truthy (lookup (js "detail") members)
              then lookup (js "detail") members
              else if truthy (lookup (js "error") members)
              then lookup (js "error") members
              else str (js "HTTP " ++ toString (api.status response)))).
Proof.
  intros Hok. unfold api.handleResponse. rewrite Hok. simpl negb. cbv iota.
  repeat split.
  - intros value. destruct (api.json response) as [[]|]; discriminate.
  - intros message ->. reflexivity.
  - intros members ->. reflexivity.
Qed.

Lemma JSString_eqb_true (a b : JSString) : JSString_eqb a b = true -> a = b.
Proof.
  unfold JSString_eqb. now destruct (list_eq_dec Z.eq_dec a b).
Qed.

Lemma JSString_eqb_false (a b : JSString) : a <> b -> JSString_eqb a b = false.
Proof.
  unfold JSString_eqb. now destruct (list_eq_dec Z.eq_dec a b).
Qed.

(** X25.  The reducer leaves the state untouched for an action whose type
    is none of [ActionTypes], and it writes the current session, the
    workflow status and the toast only for the actions that name them. *)
Theorem reducer_ignores_what_it_does_not_know
  (st : AppContext.state) (a : AppContext.action) :
  (~ In (AppContext.type a) AppContext.ActionTypes ->
   AppContext.appReducer st a = st)
  /\ (AppContext.type a <> js "SET_CURRENT_SESSION" ->
      AppContext.currentSession (AppContext.appReducer st a)
      = AppContext.currentSession st)
  /\ (AppContext.type a <> js "SET_WORKFLOW_STATUS" ->
      AppContext.workflowStatus (AppContext.appReducer st a)
      = AppContext.workflowStatus st)
  /\ (AppContext.type a <> js "SHOW_TOAST" ->
      AppContext.type a <> js "HIDE_TOAST" ->
      AppContext.toast (AppContext.appReducer st a) = AppContext.toast st).
Proof.
  unfold AppContext.appReducer. repeat split.
  - intros Hunknown.
    repeat match goal with
           | |- context [JSString_eqb (AppContext.type a) ?t] =>
               rewrite (JSString_eqb_false (AppContext.type a) t)
                 by (intros Heq; apply Hunknown; rewrite Heq;
                     unfold AppContext.ActionTypes; simpl; tauto)
           end.
    reflexivity.
  - intros Hnot. rewrite (JSString_eqb_false _ _ Hnot). tests; reflexivity.
  - intros Hnot.
    rewrite (JSString_eqb_false _ (js "SET_WORKFLOW_STATUS") Hnot).
    tests; reflexivity.
  - intros Hshow Hhide.
    rewrite (JSString_eqb_false _ (js "SHOW_TOAST") Hshow),
            (JSString_eqb_false _ (js "HIDE_TOAST") Hhide).
    tests; reflexivity.
Qed.

Lemma lookup_setMember key k v members :
  lookup key (Ref.setMember k v members)
  = if JSString_eqb k key then Some v else lookup key members.
Proof.
  induction members as [|[k' v'] members IH]; simpl.
  - now destruct (JSString_eqb k key).
  - destruct (JSString_eqb k' k) eqn:Hk'; simpl.
    + apply JSString_eqb_true in Hk'. subst k'.
      now destruct (JSString_eqb k key).
    + destruct (JSString_eqb k' key) eqn:Hkey.
      * apply JSString_eqb_true in Hkey. subst k'.
        destruct (JSString_eqb k key) eqn:Hk; [|reflexivity].
        apply JSString_eqb_true in Hk. subst k.
        now rewrite JSString_eqb_refl in Hk'.
      * exact IH.
Qed.

Lemma lookup_assign key source : forall target,
  NoDup (map fst source) ->
  lookup key (AppContext.assign target source)
  = match lookup key source with
    | Some v => Some v
    | None => lookup key target
    end.
Proof.
  unfold AppContext.assign.
  induction source as [|[k v] source IH]; intros target Hdup; simpl.
  - reflexivity.
  - inversion Hdup as [|? ? Hfresh Hrest]; subst.
    rewrite (IH _ Hrest), lookup_setMember.
    destruct (JSString_eqb k key) eqn:Hk; [|reflexivity].
    apply JSString_eqb_true in Hk. subst k.
    assert (lookup key source = None) as ->; [|reflexivity].
    clear -Hfresh. induction source as [|[k' v'] source IH]; [reflexivity|].
    simpl in *. destruct (JSString_eqb k' key) eqn:Hk'.
    + apply JSString_eqb_true in Hk'. subst k'. tauto.
    + apply IH. tauto.
Qed.

(** X19.  Updating the preferences with an object sets each preference the
    object names to the object's value and keeps every other preference
    as it was; nothing else in the app state changes. *)
Theorem updating_preferences_keeps_the_others
  (st : AppContext.state) (changes : list (JSString * JSON)) (key : JSString) :
  NoDup (map fst changes) ->
  let st' := AppContext.updatePreferences (Some (JObject changes)) st in
  lookup key (AppContext.preferences st')
  = match lookup key changes with
    | Some v => Some v
    | None => lookup key (AppContext.preferences st)
    end
  /\ AppContext.currentSession st' = AppContext.currentSession st
  /\ AppContext.workflowStatus st' = AppContext.workflowStatus st
  /\ AppContext.toast st' = AppContext.toast st.
Proof.
  intros Hdup. simpl. repeat split. now apply lookup_assign.
Qed.

(* ================================================================== *)
(** ** The further properties at concrete inputs *)

(** A completion marker sent with a leading space and a carriage return. *)
Lemma surrounding_whitespace_witness :
  decodeLine refHost ([32] ++ js "event: done" ++ [13])
  = decodeLine refHost (js "event: done").
Proof.
  apply (surrounding_whitespace_is_ignored refHost [32] (js "event: done")
           [13]); repeat constructor.
Defined.

(** A stream of one data line: no callback is scheduled. *)
Lemma no_done_line_witness :
  timers (finalState
            (processStreamingResponse refHost Examples.replyReady
               (okResponse Examples.wholeLine) false Examples.replyReady))
  = timers Examples.replyReady.
Proof.
  apply (stream_schedules_one_callback_per_done_line refHost
           Examples.replyReady (okResponse Examples.wholeLine) false
           Examples.replyReady).
  vm_compute. repeat constructor. discriminate.
Defined.

(** A continuation whose body breaks after its first chunk. *)
Lemma broken_body_witness :
  exists added entry,
    messages (continueWorkflow refHost Examples.replyReady
                (SessionInfo.id (sessionInfo Examples.replyReady))
                (inputMessage Examples.replyReady)
                (resolved MoreExamples.brokenBody) Examples.replyReady)
    = messages Examples.replyReady ++ added ++ [entry]
    /\ map Message.content added = [str (js "Drafting")]
    /\ Message.role entry = system.
Proof.
  destruct (continue_keeps_entries_read_before_a_failure refHost
              Examples.replyReady
              (SessionInfo.id (sessionInfo Examples.replyReady))
              (inputMessage Examples.replyReady)
              MoreExamples.brokenBody (js "network error")
              Examples.replyReady eq_refl eq_refl)
    as (added & entry & Hmessages & Hannounced & Hrole & _).
  exists added, entry. split; [exact Hmessages|]. split; [|exact Hrole].
  assert (map Message.content added
          = map fst
              (map (fun m => (Message.content m, Message.step m)) added))
    as -> by (rewrite map_map; reflexivity).
  rewrite Hannounced. reflexivity.
Defined.

(** A replay whose request is rejected. *)
Lemma failed_replay_witness :
  workflowPhase (replayWorkflow refHost Examples.replayReady
                   (inputMessage Examples.replayReady)
                   (rejected (js "Failed to fetch")) Examples.replayReady)
  = workflowPhase Examples.replayReady.
Proof.
  destruct (start_and_replay_failure_append_one_error_entry refHost
              Examples.replayReady (inputMessage Examples.replayReady)
              (rejected (js "Failed to fetch")) Examples.replayReady I)
    as (_ & _ & _ & Hphase & _).
  exact Hphase.
Defined.

Lemma replay_mode_witness :
  requests (handleSendMessage refHost Examples.replayReady
              (streaming Examples.replayStream) Examples.replayReady)
  = requests Examples.replayReady
    ++ [apiService.replayWorkflow (str (js "abc123"))
                                  (js "I need silk fabric instead")].
Proof.
  apply (replay_mode_sends_a_replay refHost Examples.replayReady
           (streaming Examples.replayStream) Examples.replayReady);
    reflexivity.
Defined.

Lemma new_session_witness :
  requests (handleSendMessage refHost Examples.firstSubmission
              (streaming Examples.startStream) Examples.firstSubmission)
  = requests Examples.firstSubmission
    ++ [apiService.startWorkflow
          (js "I need 5000 meters of organic cotton canvas") (js "quote")].
Proof.
  apply (new_session_sends_a_start refHost Examples.firstSubmission
           (streaming Examples.startStream) Examples.firstSubmission);
    reflexivity.
Defined.

Lemma established_session_witness :
  requests (handleSendMessage refHost Examples.replyReady
              (streaming MoreExamples.continueStream) Examples.replyReady)
  = requests Examples.replyReady
    ++ [apiService.continueWorkflow (str (js "abc123"))
                                    (js "We can offer $5.50 per meter")].
Proof.
  apply (established_session_sends_a_continue refHost Examples.replyReady
           (streaming MoreExamples.continueStream) Examples.replyReady).
  - reflexivity.
  - discriminate.
  - right. left. reflexivity.
Defined.

Lemma user_entry_witness :
  exists userMessage rest,
    messages (handleSendMessage refHost Examples.firstSubmission
                (streaming Examples.startStream) Examples.firstSubmission)
    = messages Examples.firstSubmission ++ userMessage :: rest
    /\ Message.role userMessage = user
    /\ Message.content userMessage
       = str (inputMessage Examples.firstSubmission)
    /\ Forall (fun m => Message.role m <> user) rest.
Proof.
  exact (submission_appends_the_user_entry_first refHost
           Examples.firstSubmission (streaming Examples.startStream)
           Examples.firstSubmission eq_refl).
Defined.

Lemma no_new_session_witness :
  AppContext.canStartNewSession
    (AppContext.setWorkflowStatus
       (str (workflowStatus
               (dispatch refHost Examples.firstSubmission
                  (streaming Examples.startStream)
                  (beginSend refHost Examples.firstSubmission
                             Examples.firstSubmission))))
       AppContext.initialState)
  = false.
Proof.
  destruct (no_new_session_while_a_submission_runs refHost
              Examples.firstSubmission (streaming Examples.startStream)
              Examples.firstSubmission AppContext.initialState eq_refl)
    as (Hrunning & _).
  exact Hrunning.
Defined.

Lemma null_record_witness :
  messages (loadSessionHistory refHost (js "abc123")
              (resolved {| messages_log := Some MoreExamples.holedLog |})
              (resolved Examples.sessionStatePayload)
              (mount refHost None))
  = messages (mount refHost None).
Proof.
  destruct (null_record_drops_the_whole_history refHost (js "abc123")
              MoreExamples.holedLog (resolved Examples.sessionStatePayload)
              (mount refHost None)) as (Hmessages & _).
  - right. left. reflexivity.
  - exact Hmessages.
Defined.

Lemma empty_history_witness :
  SessionInfo.id
    (sessionInfo
       (loadSessionHistory refHost (js "abc123")
          (resolved {| messages_log := Some [] |})
          (resolved Examples.sessionStatePayload) (mount refHost None)))
  = str (js "abc123").
Proof.
  destruct (empty_history_takes_the_reported_state refHost (js "abc123")
              (Some [])
              [(js "status", JString (js "active"));
               (js "intent", JString (js "quote_request"));
               (js "intent_confidence", JNumber 92 (-2))]
              (mount refHost None)) as (_ & _ & _ & Hinfo & _).
  - right. reflexivity.
  - change (resolved (JObject _)) with (resolved Examples.sessionStatePayload)
      in Hinfo.
    rewrite Hinfo. reflexivity.
Defined.

Lemma hydration_survives_witness :
  sessionInfo
    (loadSessionHistory refHost (js "abc123")
       (resolved {| messages_log := Some Examples.historyLog |})
       (rejected (js "HTTP 500")) (mount refHost None))
  = sessionInfo (mount refHost None).
Proof.
  destruct (hydration_survives_a_failed_state_request refHost (js "abc123")
              (js "HTTP 500")
              [JObject [(js "step", JString (js "search"));
                        (js "message", JString (js "Found 8 matches"))]]
              (JObject [(js "step", JString (js "quote"));
                        (js "message",
                         JString (js "Generated QUOTE for review"))])
              (js "Generated QUOTE for review") (mount refHost None))
    as (_ & _ & Hinfo & _).
  - repeat constructor; discriminate.
  - reflexivity.
  - exact Hinfo.
Defined.

Lemma non_string_message_witness :
  timers (loadSessionHistory refHost (js "abc123")
            (resolved {| messages_log := Some MoreExamples.numberedLog |})
            (resolved Examples.sessionStatePayload) (mount refHost None))
  = timers (mount refHost None).
Proof.
  destruct (non_string_last_message_stops_the_loader refHost (js "abc123")
              [JObject [(js "message", JString (js "Found 8 matches"))]]
              (JObject [(js "message", JNumber 42 0)])
              (resolved Examples.sessionStatePayload) (mount refHost None))
    as (_ & _ & Htimers & _).
  - repeat constructor; discriminate.
  - reflexivity.
  - exact Htimers.
Defined.

(** A 502 answered with an HTML page. *)
Lemma failed_response_witness :
  api.handleResponse {| api.ok := false; api.status := 502;
                        api.json := rejected (js "Unexpected token <") |}
  = api.threwError (str (js "Unknown error")).
Proof.
  destruct (failed_response_always_throws
              {| api.ok := false; api.status := 502;
                 api.json := rejected (js "Unexpected token <") |} eq_refl)
    as (_ & Hunknown & _).
  exact (Hunknown (js "Unexpected token <") eq_refl).
Defined.

Lemma unknown_action_witness :
  AppContext.appReducer AppContext.initialState
    {| AppContext.type := js "RESET"; AppContext.payload := undefined |}
  = AppContext.initialState.
Proof.
  destruct (reducer_ignores_what_it_does_not_know AppContext.initialState
              {| AppContext.type := js "RESET";
                 AppContext.payload := undefined |}) as (Hunknown & _).
  apply Hunknown. vm_compute.
  intros H. repeat (destruct H as [H|H]; [discriminate|]). exact H.
Defined.

Lemma dark_theme_witness :
  lookup (js "notifications")
    (AppContext.preferences
       (AppContext.updatePreferences
          (Some (JObject [(js "theme", JString (js "dark"))]))
          AppContext.initialState))
  = Some (JBool true).
Proof.
  destruct (updating_preferences_keeps_the_others AppContext.initialState
              [(js "theme", JString (js "dark"))] (js "notifications"))
    as (Hlookup & _).
  - repeat constructor. intros [].
  - rewrite Hlookup. reflexivity.
Defined.

(* ================================================================== *)
(** ** Callbacks that fire while a call runs *)

Section TimedFacts.

Variable host : Host.

(** When no callback fires meanwhile, the call is the uninterrupted one. *)
Lemma readLoopTimed_quiet render isNew failure pending : forall decoder st,
  readLoopTimed host render isNew decoder pending failure [] st
  = readLoop host render isNew decoder pending failure st.
Proof.
  induction pending as [|value pending IH]; intros decoder st; simpl;
    [reflexivity|].
  destruct (TextDecoder.decode decoder value) as [decoder' chunk]. apply IH.
Qed.

Lemma consumeTimed_quiet render fetched isNew before st :
  consumeTimed host render quiet fetched isNew before st
  = consume host render fetched isNew before st.
Proof.
  unfold consumeTimed, consume, processStreamingResponseTimed,
    processStreamingResponse.
  simpl. destruct fetched as [response|message]; [|reflexivity].
  destruct (negb (ok response)); [reflexivity|].
  apply readLoopTimed_quiet.
Qed.

Lemma dispatchTimed_quiet render fetched st :
  dispatchTimed host render quiet fetched st = dispatch host render fetched st.
Proof.
  unfold dispatchTimed, dispatch, startNewWorkflowTimed, startNewWorkflow,
    continueWorkflowTimed, continueWorkflow, replayWorkflowTimed,
    replayWorkflow.
  now rewrite !consumeTimed_quiet.
Qed.

Lemma handleSendMessageTimed_quiet render fetched st :
  handleSendMessageTimed host render quiet fetched st
  = handleSendMessage host render fetched st.
Proof.
  unfold handleSendMessageTimed, handleSendMessage.
  now rewrite dispatchTimed_quiet.
Qed.

Section Kept.

Variable render : State.
Variable P : State -> Prop.
Hypothesis HP : keptWhileRunning render P.

Lemma fireSome_kept positions : forall st,
  P st -> P (fireSome positions st).
Proof.
  induction positions as [|index positions IH]; intros st Hst; simpl;
    [exact Hst|].
  apply IH. now apply (kept_fireAt render P HP).
Qed.

Lemma onData_kept isNew payload st :
  P st -> P (onData host isNew payload st).
Proof.
  destruct HP as [Hm Hc Hd Ht Hs Hn Hi _ _ _ _]. intros Hst.
  unfold onData, addAssistantMessage.
  destruct payload; try exact Hst; tests; auto 10.
Qed.

Lemma processLine_kept isNew st line :
  P st -> P (processLine host render isNew st line).
Proof.
  intros Hst. unfold processLine.
  destruct (decodeLine host line) as [[payload|]|]; simpl.
  - now apply onData_kept.
  - now apply (kept_setTimeout render P HP).
  - exact Hst.
Qed.

Lemma lines_kept isNew lines : forall st,
  P st -> P (fold_left (processLine host render isNew) lines st).
Proof.
  induction lines as [|line lines IH]; intros st Hst; simpl; [exact Hst|].
  apply IH. now apply processLine_kept.
Qed.

Lemma readLoopTimed_kept isNew failure pending : forall decoder reads st,
  P st ->
  P (finalState (readLoopTimed host render isNew decoder pending failure
                               reads st)).
Proof.
  induction pending as [|value pending IH]; intros decoder reads st Hst;
    simpl.
  - rewrite finalState_finish. now apply fireSome_kept.
  - destruct (TextDecoder.decode decoder value) as [decoder' chunk].
    apply IH. apply lines_kept. now apply fireSome_kept.
Qed.

Lemma consumeTimed_kept waits fetched isNew before st :
  (forall s, P s -> P (before s)) ->
  P st ->
  P (finalState (consumeTimed host render waits fetched isNew before st)).
Proof.
  intros Hbefore Hst. unfold consumeTimed.
  destruct fetched as [response|message]; [|now apply fireSome_kept].
  destruct (negb (ok response)).
  - destruct (responseText response); simpl; now repeat apply fireSome_kept.
  - unfold processStreamingResponseTimed. apply readLoopTimed_kept.
    apply Hbefore. now apply fireSome_kept.
Qed.

Lemma recover_kept failed toastMessage result :
  P (finalState result) -> P (recover host failed toastMessage result).
Proof.
  destruct HP as [Hm Hc Hd Ht _ _ _ _ _ _ _].
  destruct result as [st|message st]; simpl; intros Hst; [exact Hst|].
  unfold addSystemMessage. auto 10.
Qed.

Lemma operationsTimed_kept waits input sessionId fetched st :
  P st ->
  P (startNewWorkflowTimed host render waits input fetched st)
  /\ P (continueWorkflowTimed host render waits sessionId input fetched st)
  /\ P (replayWorkflowTimed host render waits input fetched st).
Proof.
  intros Hst.
  unfold startNewWorkflowTimed, continueWorkflowTimed, replayWorkflowTimed.
  repeat split; apply recover_kept; apply consumeTimed_kept;
    try (intros s Hs; first [exact Hs
                            | now apply (kept_setWorkflowPhase render P HP)]);
    now apply (kept_request render P HP).
Qed.

Lemma dispatchTimed_kept waits fetched st :
  P st -> P (dispatchTimed host render waits fetched st).
Proof.
  intros Hst.
  destruct (operationsTimed_kept waits (inputMessage render)
              (SessionInfo.id (sessionInfo render)) fetched st Hst)
    as (Hstart & Hcontinue & Hreplay).
  unfold dispatchTimed. tests; assumption.
Qed.

End Kept.

(** A field that neither the writes of a running call nor the callbacks
    write keeps its value. *)
Lemma kept_field {A : Type} (f : State -> A) (v : A) render :
  untouchedByStream f ->
  (forall pending st, f (setTimers pending st) = f st) ->
  (forall b st, f (setShowPostActions b st) = f st) ->
  (forall m st, f (setActionMode m st) = f st) ->
  keptWhileRunning render (fun st => f st = v).
Proof.
  intros (Hm & Hc & Hd & Ht & Hs & Hn & Hi & Hto & Hr & Hp) Htimers Hshow
    Hmode.
  constructor; intros; rewrite ?Hm, ?Hc, ?Hd, ?Ht, ?Hs, ?Hn, ?Hi, ?Hto, ?Hr,
    ?Hp; try assumption.
  unfold fireAt. destruct (nth_error (timers st) index) as [timer|];
    [|assumption].
  unfold fire. destruct (callback timer) as [|[|]];
    now rewrite ?Ht, ?Hshow, ?Hmode, Htimers.
Qed.


Lemma Forall_without {A : Type} (Q : A -> Prop) index (l : list A) :
  Forall Q l -> Forall Q (firstn index l ++ skipn (S index) l).
Proof.
  revert l. induction index as [|index IH]; intros [|a l] H; simpl.
  - constructor.
  - now inversion H.
  - constructor.
  - inversion H as [|? ? Ha Hl]; subst.
    constructor; [exact Ha | now apply IH].
Qed.

(** A callback that does not ask for the supplier leaves the action mode
    alone, and the callbacks left pending are among those that were. *)
Lemma fireAt_keeps_actionMode index st :
  Forall (fun timer => ~ asksForSupplier timer) (timers st) ->
  actionMode (fireAt index st) = actionMode st
  /\ Forall (fun timer => ~ asksForSupplier timer) (timers (fireAt index st)).
Proof.
  intros Htimers. unfold fireAt.
  destruct (nth_error (timers st) index) as [timer|] eqn:Hnth;
    [|now split].
  assert (~ asksForSupplier timer) as Hnot.
  { apply nth_error_In in Hnth.
    now apply (proj1 (Forall_forall _ _) Htimers). }
  pose proof (Forall_without _ index _ Htimers) as Hrest.
  unfold asksForSupplier in Hnot. unfold fire.
  destruct (callback timer) as [|[|]]; simpl; (now split) || congruence.
Qed.

Lemma fireSome_keeps_actionMode positions : forall st,
  Forall (fun timer => ~ asksForSupplier timer) (timers st) ->
  actionMode (fireSome positions st) = actionMode st.
Proof.
  induction positions as [|index positions IH]; intros st Htimers; simpl;
    [reflexivity|].
  destruct (fireAt_keeps_actionMode index st Htimers) as (Hmode & Hrest).
  now rewrite (IH _ Hrest).
Qed.

(** What no callback writes. *)
Lemma fireAt_frame index st :
  messages (fireAt index st) = messages st
  /\ sessionInfo (fireAt index st) = sessionInfo st
  /\ workflowPhase (fireAt index st) = workflowPhase st
  /\ isLoading (fireAt index st) = isLoading st
  /\ requests (fireAt index st) = requests st
  /\ clock (fireAt index st) = clock st.
Proof.
  unfold fireAt. destruct (nth_error (timers st) index) as [timer|];
    [|repeat split].
  unfold fire. destruct (callback timer) as [|[|]]; repeat split.
Qed.

Lemma fireSome_frame positions : forall st,
  messages (fireSome positions st) = messages st
  /\ sessionInfo (fireSome positions st) = sessionInfo st
  /\ workflowPhase (fireSome positions st) = workflowPhase st
  /\ isLoading (fireSome positions st) = isLoading st
  /\ requests (fireSome positions st) = requests st
  /\ clock (fireSome positions st) = clock st.
Proof.
  induction positions as [|index positions IH]; intros st; simpl;
    [repeat split|].
  destruct (IH (fireAt index st)) as (-> & -> & -> & -> & -> & ->).
  apply fireAt_frame.
Qed.


(** Once every pending callback has fired, the action mode is
    supplier_response exactly when it was already or one of them asks for
    the supplier; otherwise it is what it was. *)
Lemma fire_fold_supplier_response pending : forall st,
  let fired := fold_left (fun st timer => fire timer st) pending st in
  (actionMode fired = Some supplier_response
   <-> actionMode st = Some supplier_response
       \/ Exists asksForSupplier pending)
  /\ (actionMode fired = actionMode st
      \/ actionMode fired = Some supplier_response).
Proof.
  induction pending as [|timer pending IH]; intros st; simpl.
  - split; [|now left]. split; [now left|].
    intros [H|H]; [exact H | inversion H].
  - destruct (IH (fire timer st)) as (IHiff & IHor).
    assert (actionMode (fire timer st) = actionMode st /\ ~ asksForSupplier timer
            \/ actionMode (fire timer st) = Some supplier_response
               /\ asksForSupplier timer) as Hfire.
    { unfold fire, asksForSupplier.
      destruct (callback timer) as [|[|]]; simpl;
        ((left; split; [reflexivity | discriminate])
         || (right; split; reflexivity)). }
    split.
    + rewrite IHiff. split.
      * intros [H|H]; [|right; now apply Exists_cons_tl].
        destruct Hfire as [[Heq _]|[_ Hasks]];
          [left; congruence | right; now apply Exists_cons_hd].
      * intros [H|H].
        -- left. destruct Hfire as [[Heq _]|[Heq _]]; congruence.
        -- inversion H as [? ? Hhere|? ? Hlater]; subst.
           ++ left. destruct Hfire as [[_ Hnot]|[Heq _]];
                [contradiction | exact Heq].
           ++ now right.
    + destruct IHor as [H|H]; [|now right].
      destruct Hfire as [[Heq _]|[Heq _]]; [left | right]; congruence.
Qed.


(** X11.  While an accepted submission runs, whatever callbacks fire
    meanwhile, the component is loading, the input is empty and the app
    context's workflow status is 'processing'; when it has ended, however
    its request went, the component is no longer loading, the input is
    still empty and the status is 'idle'.  The post actions, hidden when
    the submission begins, are still hidden at its end when no callback
    has fired in between. *)
Theorem submission_ends_idle_with_an_empty_input
  (render : State) (waits : Waits) (fetched : Promise Response) (st : State) :
  refuses render = false ->
  let running :=
    dispatchTimed host render waits fetched (beginSend host render st) in
  let ended := handleSendMessageTimed host render waits fetched st in
  (isLoading running = true
   /\ inputMessage running = []
   /\ workflowStatus running = js "processing")
  /\ (isLoading ended = false
      /\ inputMessage ended = []
      /\ workflowStatus ended = js "idle")
  /\ showPostActions (handleSendMessageTimed host render quiet fetched st)
     = false.
Proof.
  intros Hgo running ended.
  assert (untouchedByStream isLoading) as HisLoading by repeat split.
  assert (isLoading running = true) as Hloading
      by (apply (dispatchTimed_kept render _
                   (kept_field isLoading true render HisLoading
                      (fun _ _ => eq_refl) (fun _ _ => eq_refl)
                      (fun _ _ => eq_refl)));
          reflexivity).
  assert (inputMessage running = []) as Hinput
      by (apply (dispatchTimed_kept render _
                   (kept_field inputMessage [] render untouched_inputMessage
                      (fun _ _ => eq_refl) (fun _ _ => eq_refl)
                      (fun _ _ => eq_refl)));
          reflexivity).
  assert (workflowStatus running = js "processing") as Hstatus
      by (apply (dispatchTimed_kept render _
                   (kept_field workflowStatus (js "processing") render
                      untouched_workflowStatus
                      (fun _ _ => eq_refl) (fun _ _ => eq_refl)
                      (fun _ _ => eq_refl)));
          reflexivity).
  split; [now repeat split|].
  unfold ended, handleSendMessageTimed. rewrite Hgo.
  split; [repeat split; exact Hinput|].
  rewrite dispatchTimed_quiet. simpl.
  now rewrite (dispatch_untouched host showPostActions
                 untouched_showPostActions).
Qed.

(** X12.  When an accepted submission has ended, whatever callbacks fired
    meanwhile, the action mode is none; once the callbacks still pending
    have fired it is supplier_response exactly when one of them is a done
    callback of the awaiting_supplier phase, and none otherwise.  So a
    submission accepted outside replay mode by a render in that phase,
    whose stream holds a completion marker, ends with the action mode at
    supplier_response when no callback fires before the call has ended. *)
Theorem done_callback_in_the_awaiting_phase_asks_for_the_supplier
  (render : State) (waits : Waits) (fetched : Promise Response) (st : State) :
  refuses render = false ->
  let ended := handleSendMessageTimed host render waits fetched st in
  actionMode ended = None
  /\ (actionMode (fireAll ended) = Some supplier_response
      <-> Exists asksForSupplier (timers ended))
  /\ (actionMode (fireAll ended) <> Some supplier_response ->
      actionMode (fireAll ended) = None)
  /\ (forall response,
        fetched = resolved response ->
        actionMode render <> Some replay ->
        workflowPhase render = awaiting_supplier ->
        ok response = true ->
        In doneSignal
           (wireEvents host TextDecoder.new (chunks (body response))) ->
        actionMode
          (fireAll (handleSendMessageTimed host render quiet fetched st))
        = Some supplier_response).
Proof.
  intros Hgo ended.
  assert (actionMode ended = None) as Hended
      by (unfold ended, handleSendMessageTimed; now rewrite Hgo).
  split; [exact Hended|].
  change (fireAll ended)
    with (fold_left (fun st timer => fire timer st) (timers ended)
                    (setTimers [] ended)).
  pose proof (fire_fold_supplier_response (timers ended)
                (setTimers [] ended)) as Hfired.
  cbv zeta in Hfired. destruct Hfired as (Hiff & Hor).
  change (actionMode (setTimers [] ended)) with (actionMode ended)
    in Hiff, Hor.
  rewrite Hended in Hiff, Hor.
  split; [|split].
  - rewrite Hiff. split; [intros [H|H]; [discriminate | exact H] | now right].
  - intros Hnot. destruct Hor as [H|H]; [exact H | contradiction].
  - intros response -> Hmode Hphase Hok Hdone.
    rewrite handleSendMessageTimed_quiet.
    now apply uninterrupted_done_callback_asks_for_the_supplier.
Qed.

(** X15.  Starting a new chat replaces the timeline by one greeting and
    resets the session, but it cancels no pending callback.  When no
    submission is running and none of the pending callbacks is a done
    callback of the awaiting_supplier phase, then whichever of them fire
    afterwards, the next non-blank submission is sent as the start of a
    workflow, whatever session the component was in.  When such a callback
    is pending and fires after the new chat was started, it sets the
    action mode to supplier_response, and the next submission is sent as a
    continuation of the session 'new' instead. *)
Theorem new_chat_then_submission_starts_a_workflow
  (input : JSString) (fetched : Promise Response) (st : State) :
  isLoading st = false ->
  trim input <> [] ->
  (Forall (fun timer => ~ asksForSupplier timer) (timers st) ->
   forall positions,
     let fresh :=
       setInputMessage input (fireSome positions (startNewChat host st)) in
     map Message.type (messages fresh) = [js "greeting"]
     /\ sessionInfo fresh
        = SessionInfo.mk (str (js "new")) (str (js "active"))
                         (Some JNull) (Some JNull)
     /\ workflowPhase fresh = initial
     /\ actionMode fresh = None
     /\ requests (submit host fetched fresh)
        = requests st ++ [apiService.startWorkflow input (js "quote")])
  /\ (forall index timer,
        nth_error (timers st) index = Some timer ->
        asksForSupplier timer ->
        let stale :=
          setInputMessage input (fireAt index (startNewChat host st)) in
        actionMode stale = Some supplier_response
        /\ requests (submit host fetched stale)
           = requests st
             ++ [apiService.continueWorkflow (str (js "new")) input]).
Proof.
  intros Hidle Hinput. split.
  - intros Htimers positions fresh.
    destruct (fireSome_frame positions (startNewChat host st))
      as (Hmessages & Hsession & Hphase & Hloading & Hrequests & _).
    assert (actionMode fresh = None) as Hmode
        by (unfold fresh; simpl;
            now rewrite (fireSome_keeps_actionMode positions
                           (startNewChat host st) Htimers)).
    assert (sessionInfo fresh
            = SessionInfo.mk (str (js "new")) (str (js "active"))
                             (Some JNull) (Some JNull)) as Hfresh
        by (unfold fresh; simpl; now rewrite Hsession).
    assert (workflowPhase fresh = initial) as Hinitial
        by (unfold fresh; simpl; now rewrite Hphase).
    split; [unfold fresh; simpl; now rewrite Hmessages|].
    split; [exact Hfresh|]. split; [exact Hinitial|]. split; [exact Hmode|].
    unfold submit, handleSendMessage, refuses, dispatch.
    rewrite Hmode, Hinitial, Hfresh.
    assert (isLoading fresh = false) as ->
        by (unfold fresh; simpl; now rewrite Hloading).
    assert (inputMessage fresh = input) as -> by reflexivity.
    destruct (trim input) as [|c t]; [congruence|]. simpl.
    match goal with
    | |- context [startNewWorkflow host ?r ?i ?f ?s] =>
        destruct (operations_send_one_request host r i (str (js "new")) f s)
          as (-> & _)
    end.
    unfold fresh. simpl. now rewrite Hrequests.
  - intros index timer Hnth Hasks stale.
    assert (fireAt index (startNewChat host st)
            = fire timer
                (setTimers (firstn index (timers st)
                            ++ skipn (S index) (timers st))
                           (startNewChat host st))) as Hfired
        by (unfold fireAt; simpl timers; now rewrite Hnth).
    unfold asksForSupplier in Hasks.
    assert (actionMode stale = Some supplier_response) as Hmode
        by (unfold stale; rewrite Hfired; unfold fire; now rewrite Hasks).
    split; [exact Hmode|].
    unfold submit, handleSendMessage, refuses, dispatch.
    rewrite Hmode.
    assert (isLoading stale = false) as ->
        by (unfold stale; rewrite Hfired; unfold fire; now rewrite Hasks).
    assert (inputMessage stale = input) as -> by reflexivity.
    assert (SessionInfo.id (sessionInfo stale) = str (js "new")) as ->
        by (unfold stale; rewrite Hfired; unfold fire; now rewrite Hasks).
    destruct (trim input) as [|c t]; [congruence|]. simpl.
    match goal with
    | |- context [continueWorkflow host ?r ?id ?i ?f ?s] =>
        destruct (operations_send_one_request host r i id f s)
          as (_ & -> & _)
    end.
    unfold stale. simpl. rewrite Hfired. unfold fire. now rewrite Hasks.
Qed.

End TimedFacts.



(** In a session awaiting the supplier, the callback of the marker fires
    while the body is still open: the action mode is supplier_response
    while the continuation runs, and none when it has ended. *)
Example done_callback_sets_the_action_mode_while_the_call_runs :
  let st := Examples.replyReady in
  let running :=
    dispatchTimed refHost st TimedExamples.duringSecondRead
      (streaming TimedExamples.lingeringStream) (beginSend refHost st st) in
  actionMode st = None
  /\ actionMode running = Some supplier_response
  /\ actionMode
       (handleSendMessageTimed refHost st TimedExamples.duringSecondRead
          (streaming TimedExamples.lingeringStream) st)
     = None.
Proof. repeat split. Qed.

(** A first submission whose stream stays open after the marker. *)
Lemma submission_ends_witness :
  let ended :=
    handleSendMessageTimed refHost Examples.firstSubmission
      TimedExamples.duringSecondRead
      (streaming TimedExamples.lingeringStart) Examples.firstSubmission in
  isLoading ended = false
  /\ inputMessage ended = []
  /\ workflowStatus ended = js "idle".
Proof.
  destruct (submission_ends_idle_with_an_empty_input refHost
              Examples.firstSubmission TimedExamples.duringSecondRead
              (streaming TimedExamples.lingeringStart)
              Examples.firstSubmission eq_refl) as (_ & Hended & _).
  exact Hended.
Defined.

(** There the callback of the marker fires while the body is still open:
    the post actions are shown while the component is still loading, and
    they are still shown when the submission has ended. *)
Example post_actions_shown_before_the_call_has_ended :
  let st := Examples.firstSubmission in
  let running :=
    dispatchTimed refHost st TimedExamples.duringSecondRead
      (streaming TimedExamples.lingeringStart) (beginSend refHost st st) in
  showPostActions (beginSend refHost st st) = false
  /\ showPostActions running = true
  /\ isLoading running = true
  /\ showPostActions
       (handleSendMessageTimed refHost st TimedExamples.duringSecondRead
          (streaming TimedExamples.lingeringStart) st)
     = true.
Proof. repeat split. Qed.

(** A reply to the supplier, no callback firing before the call has
    ended. *)
Lemma awaiting_phase_witness :
  actionMode
    (fireAll (handleSendMessageTimed refHost Examples.replyReady quiet
                (resolved (okResponse MoreExamples.continueStream))
                Examples.replyReady))
  = Some supplier_response.
Proof.
  destruct (done_callback_in_the_awaiting_phase_asks_for_the_supplier refHost
              Examples.replyReady quiet
              (resolved (okResponse MoreExamples.continueStream))
              Examples.replyReady eq_refl) as (_ & _ & _ & Hquiet).
  apply (Hquiet (okResponse MoreExamples.continueStream)).
  - reflexivity.
  - discriminate.
  - reflexivity.
  - reflexivity.
  - vm_compute. right. left. reflexivity.
Defined.

(** The same reply when the body stays open after the marker and the
    callback fires meanwhile: what the callback wrote is undone by the
    [finally], no callback is left, and the action mode ends as none in a
    session that is awaiting the supplier. *)
Example done_callback_fired_before_the_body_closed_is_undone :
  let ended :=
    handleSendMessageTimed refHost Examples.replyReady
      TimedExamples.duringSecondRead
      (streaming TimedExamples.lingeringStream) Examples.replyReady in
  timers ended = []
  /\ actionMode (fireAll ended) = None
  /\ workflowPhase (fireAll ended) = awaiting_supplier.
Proof. repeat split. Qed.

(** A new chat started from a session whose done callback, of the initial
    phase, is still pending and fires afterwards; and from a session in
    which a done callback of the awaiting_supplier phase is pending and
    fires afterwards. *)
Lemma new_chat_witness :
  let ended :=
    submit refHost (streaming Examples.startStream)
           Examples.firstSubmission in
  requests (submit refHost (streaming Examples.startStream)
              (setInputMessage (js "I need denim")
                 (fireSome [0%nat] (startNewChat refHost ended))))
  = requests ended
    ++ [apiService.startWorkflow (js "I need denim") (js "quote")]
  /\ requests (submit refHost (streaming Examples.startStream)
                 (setInputMessage (js "I need denim")
                    (fireAt 0 (startNewChat refHost
                                 TimedExamples.callbackPending))))
     = requests TimedExamples.callbackPending
       ++ [apiService.continueWorkflow (str (js "new")) (js "I need denim")].
Proof.
  split.
  - destruct (new_chat_then_submission_starts_a_workflow refHost
                (js "I need denim") (streaming Examples.startStream)
                (submit refHost (streaming Examples.startStream)
                        Examples.firstSubmission)) as (Hfresh & _).
    + reflexivity.
    + vm_compute. discriminate.
    + assert (Forall (fun timer => ~ asksForSupplier timer)
                (timers (submit refHost (streaming Examples.startStream)
                                Examples.firstSubmission))) as Htimers
          by (repeat constructor; discriminate).
      destruct (Hfresh Htimers [0%nat]) as (_ & _ & _ & _ & Hrequests).
      exact Hrequests.
  - destruct (new_chat_then_submission_starts_a_workflow refHost
                (js "I need denim") (streaming Examples.startStream)
                TimedExamples.callbackPending) as (_ & Hstale).
    + reflexivity.
    + vm_compute. discriminate.
    + destruct (Hstale 0%nat
                  {| callback := afterDone awaiting_supplier; delay := 1000 |}
                  eq_refl eq_refl) as (_ & Hrequests).
      exact Hrequests.
Defined.
